(** * Symbolic path analysis of TypeScript programs: the analyzer and its
      condition evaluator

    A shallow embedding of [ConditionEvaluator] and [ProgramAnalyzer]
    (src/unnamed/part_000).  TypeScript AST nodes are an inductive type with
    the fields the visitors read; a method is a function that takes its
    receiver [this] explicitly; console output, exceptions and the symbol
    table are threaded through a small state-and-error monad. *)

From Stdlib Require Import ZArith Lia.
From stdpp Require Import base option list strings gmap.

Set Default Proof Using "Type".
#[local] Set Warnings "-register-all".

(** ** The TypeScript AST *)

(** [ts.SyntaxKind]: the kinds the two jump tables mention, some further
    tokens and expressions of the language, and [OtherKind] for the rest of
    the enumeration. *)
Module SyntaxKind.
Inductive t :=
  | EndOfFileToken | NumericLiteral | StringLiteral | Identifier
  | OpenBraceToken | CloseBraceToken | SemicolonToken | CommaToken
  | LessThanToken | GreaterThanToken | LessThanEqualsToken
  | GreaterThanEqualsToken | EqualsEqualsToken | ExclamationEqualsToken
  | EqualsGreaterThanToken | PlusToken | AmpersandToken | BarToken
  | AmpersandAmpersandToken | BarBarToken | EqualsToken
  | TrueKeyword | FalseKeyword | ThisKeyword | NumberKeyword | BooleanKeyword
  | Parameter_ | PropertyDeclaration | PropertyAccessExpression
  | ParenthesizedExpression | ArrowFunction | PrefixUnaryExpression
  | BinaryExpression | ConditionalExpression | NonNullExpression
  | Block | FirstStatement | ExpressionStatement | IfStatement
  | ReturnStatement | VariableDeclaration | VariableDeclarationList
  | FunctionDeclaration | ClassDeclaration | SourceFile | SyntaxList
  | OtherKind (code : N).
End SyntaxKind.
Abbreviation SyntaxKind := SyntaxKind.t.

(** [ts.Node].  Every node answers [getText()]; a constructor carries the
    fields that the visitors read from a node of its kind ([getChildren()]
    for the three kinds that are walked through it).  [Token] is a node of
    any kind with none of these fields: identifiers, literals, keywords,
    operator tokens, and nodes of kinds the visitors never look into. *)
Module ts.
Inductive Node :=
  | Token (kind : SyntaxKind) (text : string)
  | SourceFile (text : string) (statements : list Node)
  | SyntaxList (text : string) (children : list Node)
  | Block (text : string) (children : list Node)
  | FirstStatement (text : string) (children : list Node)
  | ExpressionStatement (text : string) (expression : Node)
  | ClassDeclaration (text : string) (members : list Node)
  | PropertyDeclaration (text : string) (initializer : option Node)
  | IfStatement (text : string) (expression thenStatement : Node)
      (elseStatement : option Node)
  | BinaryExpression (text : string) (left operatorToken right : Node)
  | Parameter_ (text : string) (name : Node) (type : option Node)
  | VariableDeclarationList (text : string) (declarations : list Node)
  | VariableDeclaration (text : string) (name : Node) (type : option Node)
      (initializer : option Node)
  | ArrowFunction (text : string) (parameters : list Node) (body : Node)
  | FunctionDeclaration (text : string) (parameters : list Node)
      (body : option Node)
  | PropertyAccessExpression (text : string) (expression name : Node)
  | NonNullExpression (text : string) (expression : Node).

(** [node.kind] *)
Definition kind (node : Node) : SyntaxKind :=
  match node with
  | Token k _ => k
  | SourceFile _ _ => SyntaxKind.SourceFile
  | SyntaxList _ _ => SyntaxKind.SyntaxList
  | Block _ _ => SyntaxKind.Block
  | FirstStatement _ _ => SyntaxKind.FirstStatement
  | ExpressionStatement _ _ => SyntaxKind.ExpressionStatement
  | ClassDeclaration _ _ => SyntaxKind.ClassDeclaration
  | PropertyDeclaration _ _ => SyntaxKind.PropertyDeclaration
  | IfStatement _ _ _ _ => SyntaxKind.IfStatement
  | BinaryExpression _ _ _ _ => SyntaxKind.BinaryExpression
  | Parameter_ _ _ _ => SyntaxKind.Parameter_
  | VariableDeclarationList _ _ => SyntaxKind.VariableDeclarationList
  | VariableDeclaration _ _ _ _ => SyntaxKind.VariableDeclaration
  | ArrowFunction _ _ _ => SyntaxKind.ArrowFunction
  | FunctionDeclaration _ _ _ => SyntaxKind.FunctionDeclaration
  | PropertyAccessExpression _ _ _ => SyntaxKind.PropertyAccessExpression
  | NonNullExpression _ _ => SyntaxKind.NonNullExpression
  end.

(** [node.getText()] *)
Definition getText (node : Node) : string :=
  match node with
  | Token _ t | SourceFile t _ | SyntaxList t _ | Block t _
  | FirstStatement t _ | ExpressionStatement t _ | ClassDeclaration t _
  | PropertyDeclaration t _ | IfStatement t _ _ _
  | BinaryExpression t _ _ _ | Parameter_ t _ _
  | VariableDeclarationList t _ | VariableDeclaration t _ _ _
  | ArrowFunction t _ _ | FunctionDeclaration t _ _
  | PropertyAccessExpression t _ _ | NonNullExpression t _ => t
  end.

(** The read [node.expression]: [undefined] on a node without that field. *)
Definition expression (node : Node) : option Node :=
  match node with
  | ExpressionStatement _ e | IfStatement _ e _ _
  | PropertyAccessExpression _ e _ | NonNullExpression _ e => Some e
  | _ => None
  end.

End ts.

(** ** Console, exceptions, and the monad that threads them *)

(** An argument of [console.log] / [console.warn]: a string, or the name
    [ts.SyntaxKind[k]] of a kind. *)
Inductive Arg := Str (s : string) | KindName (k : SyntaxKind).

Inductive ConsoleEntry :=
  | ConsoleLog (args : list Arg)
  | ConsoleWarn (args : list Arg)
  | ConsoleError (args : list Arg).

(** What a JavaScript [throw] carries here: reading a property of
    [undefined] raises a TypeError; anything else comes from a collaborator. *)
Inductive Error :=
  | TypeError
  | Raised (message : string).

Inductive Completion (A : Type) :=
  | Normal (a : A)
  | Throw (e : Error).
Arguments Normal {A} a.
Arguments Throw {A} e.

Module JS.
Section Monad.
(** [S] is the mutable state a computation can reach. *)
Context {S : Type}.

Definition M (A : Type) : Type := S -> Completion A * S.

Definition ret {A} (a : A) : M A := fun s => (Normal a, s).

Definition bind {A B} (c : M A) (k : A -> M B) : M B :=
  fun s => match c s with
           | (Normal a, s') => k a s'
           | (Throw e, s') => (Throw e, s')
           end.

Definition throw {A} (e : Error) : M A := fun s => (Throw e, s).

Definition modify (f : S -> S) : M unit := fun s => (Normal tt, f s).

(** Reading a member of [o]: a TypeError when [o] is [undefined]. *)
Definition deref {A} (o : option A) : M A :=
  match o with
  | Some a => ret a
  | None => throw TypeError
  end.

Definition lift {A} (c : Completion A) : M A := fun s => (c, s).
End Monad.
Arguments M : clear implicits.
End JS.

Declare Scope js_scope.
Delimit Scope js_scope with js.
Notation "x <- c1 ;; c2" := (JS.bind c1 (fun x => c2))
  (at level 100, c1 at next level, right associativity) : js_scope.
Notation "c1 ;; c2" := (JS.bind c1 (fun _ => c2))
  (at level 100, right associativity) : js_scope.

(** ** ConditionEvaluator (src/unnamed/part_000, lines 15-140) *)

Module ConditionEvaluator.
Section Evaluator.
(** Collaborators that live outside the repository's source: the
    expression objects of the z3 binding, and [CustomContext], which the
    evaluator only passes along. *)
Context {Z3Expr CustomContext : Type}.

(** The values a visitor returns or finds in [pathParams]: [undefined],
    a z3 expression, or a member that every object inherits from
    [Object.prototype]. *)
Inductive Value :=
  | Undefined
  | Inherited (key : string)
  | Expr (e : Z3Expr).

(** The members of the z3 context that the evaluator calls.  What they do
    with their arguments is the binding's business; they may throw. *)
Record Z3Context := {
  GT : Value -> Value -> Completion Value;
  GE : Value -> Value -> Completion Value;
  LT : Value -> Value -> Completion Value;
  LE : Value -> Value -> Completion Value;
  Eq : Value -> Value -> Completion Value;
}.

(** The instance fields.  [z3Context] stays [undefined] until [init] has
    run; [jumpTable] is the same for every instance and is given below. *)
Record t := {
  z3Context : option Z3Context;
  pathParams : gmap string Value;
}.

(** The state a method can reach is the console. *)
Definition M : Type -> Type := JS.M (list ConsoleEntry).

Definition console_log (args : list Arg) : M unit :=
  JS.modify (fun out => out ++ [ConsoleLog args]).

Definition console_warn (args : list Arg) : M unit :=
  JS.modify (fun out => out ++ [ConsoleWarn args]).

Definition WARNING : bool := true.

Definition warn (args : list Arg) : M unit :=
  if WARNING then console_warn args else JS.ret tt.

(** The property read [o[k]] on an ordinary object: an own property, else
    what [Object.prototype] provides under that name, else [undefined]. *)
Definition objectPrototypeKeys : list string :=
  ["constructor"; "hasOwnProperty"; "isPrototypeOf"; "propertyIsEnumerable";
   "toLocaleString"; "toString"; "valueOf"; "__proto__";
   "__defineGetter__"; "__defineSetter__"; "__lookupGetter__";
   "__lookupSetter__"]%string.

Definition get (o : gmap string Value) (k : string) : Value :=
  match o !! k with
  | Some v => v
  | None => if bool_decide (k ∈ objectPrototypeKeys) then Inherited k
            else Undefined
  end.

(** The methods that the constructor stores in [jumpTable]. *)
Inductive Visitor :=
  | VisitIdentifier | VisitBinaryExpression | VisitNonNullExpression
  | VisitBarBarToken | VisitAmpersandAmpersandToken
  | VisitLessThanToken | VisitLessThanEqualsToken | VisitGreaterThanToken
  | VisitEqualsGreaterThanToken | VisitEqualsEqualsToken.

Definition jumpTable (k : SyntaxKind) : option Visitor :=
  match k with
  | SyntaxKind.Identifier => Some VisitIdentifier
  | SyntaxKind.BinaryExpression => Some VisitBinaryExpression
  | SyntaxKind.NonNullExpression => Some VisitNonNullExpression
  | SyntaxKind.BarBarToken => Some VisitBarBarToken
  | SyntaxKind.AmpersandAmpersandToken => Some VisitAmpersandAmpersandToken
  | SyntaxKind.LessThanToken => Some VisitLessThanToken
  | SyntaxKind.LessThanEqualsToken => Some VisitLessThanEqualsToken
  | SyntaxKind.GreaterThanToken => Some VisitGreaterThanToken
  | SyntaxKind.EqualsGreaterThanToken => Some VisitEqualsGreaterThanToken
  | SyntaxKind.EqualsEqualsToken => Some VisitEqualsEqualsToken
  | _ => None
  end.

(** Every method takes its receiver [this] first: [Some] evaluator for a
    call [ev.m(...)], [None] for a call of the bare function, as the jump
    table dispatch makes it.  A node parameter is [None] when the caller
    passed nothing in that position. *)

Definition visitIdentifier (this : option t) (context : CustomContext)
    (node : option ts.Node) : M Value :=
  (node <- JS.deref node ;;
   console_log [Str "Got identifier: "; Str (ts.getText node)] ;;
   this <- JS.deref this ;;
   JS.ret (get (pathParams this) (ts.getText node)))%js.

Definition visitNonNullExpression (this : option t)
    (context : CustomContext) (node : option ts.Node) : M Value :=
  (node <- JS.deref node ;;
   expression <- JS.deref (ts.expression node) ;;
   console_log [Str "Got non null expression "; Str (ts.getText expression)] ;;
   JS.ret Undefined)%js.

Definition visitBarBarToken (this : option t) (context : CustomContext)
    (node : option ts.Node) : M Value :=
  (node <- JS.deref node ;;
   console_log [Str "Got bar bar token "; Str (ts.getText node)] ;;
   JS.ret Undefined)%js.

Definition visitAmpersandAmpersandToken (this : option t)
    (context : CustomContext) (node : option ts.Node) : M Value :=
  (node <- JS.deref node ;;
   console_log [Str "Got ampersand ampersand token "; Str (ts.getText node)] ;;
   JS.ret Undefined)%js.

Definition visitGreaterThanToken (this : option t) (context : CustomContext)
    (leftNode operatorNode rightNode : option ts.Node) : M Value :=
  (operatorNode <- JS.deref operatorNode ;;
   console_log [Str "Got greater than token "; Str (ts.getText operatorNode)] ;;
   this <- JS.deref this ;;
   z3 <- JS.deref (z3Context this) ;;
   l <- visitIdentifier (Some this) context leftNode ;;
   r <- visitIdentifier (Some this) context rightNode ;;
   JS.lift (GT z3 l r))%js.

Definition visitEqualsGreaterThanToken (this : option t)
    (context : CustomContext)
    (leftNode operatorNode rightNode : option ts.Node) : M Value :=
  (operatorNode <- JS.deref operatorNode ;;
   console_log [Str "Got greater than equals token ";
                Str (ts.getText operatorNode)] ;;
   this <- JS.deref this ;;
   z3 <- JS.deref (z3Context this) ;;
   l <- visitIdentifier (Some this) context leftNode ;;
   r <- visitIdentifier (Some this) context rightNode ;;
   JS.lift (GE z3 l r))%js.

Definition visitLessThanToken (this : option t) (context : CustomContext)
    (leftNode operatorNode rightNode : option ts.Node) : M Value :=
  (operatorNode <- JS.deref operatorNode ;;
   console_log [Str "Got less than token "; Str (ts.getText operatorNode)] ;;
   this <- JS.deref this ;;
   z3 <- JS.deref (z3Context this) ;;
   l <- visitIdentifier (Some this) context leftNode ;;
   r <- visitIdentifier (Some this) context rightNode ;;
   JS.lift (LT z3 l r))%js.

Definition visitLessThanEqualsToken (this : option t)
    (context : CustomContext)
    (leftNode operatorNode rightNode : option ts.Node) : M Value :=
  (operatorNode <- JS.deref operatorNode ;;
   console_log [Str "Got less than equals token ";
                Str (ts.getText operatorNode)] ;;
   this <- JS.deref this ;;
   z3 <- JS.deref (z3Context this) ;;
   l <- visitIdentifier (Some this) context leftNode ;;
   r <- visitIdentifier (Some this) context rightNode ;;
   JS.lift (LE z3 l r))%js.

Definition visitEqualsEqualsToken (this : option t) (context : CustomContext)
    (leftNode operatorNode rightNode : option ts.Node) : M Value :=
  (operatorNode <- JS.deref operatorNode ;;
   console_log [Str "Got equals equals token ";
                Str (ts.getText operatorNode)] ;;
   this <- JS.deref this ;;
   z3 <- JS.deref (z3Context this) ;;
   l <- visitIdentifier (Some this) context leftNode ;;
   r <- visitIdentifier (Some this) context rightNode ;;
   JS.lift (Eq z3 l r))%js.

(** [visitNotEqualsToken] is defined by the class and stored nowhere. *)
Definition visitNotEqualsToken (this : option t) (context : CustomContext)
    (node : option ts.Node) : M Value :=
  (node <- JS.deref node ;;
   console_log [Str "Got not equals token "; Str (ts.getText node)] ;;
   JS.ret Undefined)%js.

(** [visitFn(context, a1, a2, a3)] for a function taken out of the jump
    table: a plain call, so the callee runs without a receiver. *)
Definition invoke
    (visitBinaryExpression : option t -> CustomContext -> ts.Node -> M Value)
    (visitFn : Visitor) (context : CustomContext)
    (a1 : ts.Node) (a2 a3 : option ts.Node) : M Value :=
  match visitFn with
  | VisitIdentifier => visitIdentifier None context (Some a1)
  | VisitBinaryExpression => visitBinaryExpression None context a1
  | VisitNonNullExpression => visitNonNullExpression None context (Some a1)
  | VisitBarBarToken => visitBarBarToken None context (Some a1)
  | VisitAmpersandAmpersandToken =>
      visitAmpersandAmpersandToken None context (Some a1)
  | VisitLessThanToken => visitLessThanToken None context (Some a1) a2 a3
  | VisitLessThanEqualsToken =>
      visitLessThanEqualsToken None context (Some a1) a2 a3
  | VisitGreaterThanToken =>
      visitGreaterThanToken None context (Some a1) a2 a3
  | VisitEqualsGreaterThanToken =>
      visitEqualsGreaterThanToken None context (Some a1) a2 a3
  | VisitEqualsEqualsToken =>
      visitEqualsEqualsToken None context (Some a1) a2 a3
  end.

Fixpoint visitBinaryExpression (this : option t) (context : CustomContext)
    (node : ts.Node) {struct node} : M Value :=
  (console_log [Str "Found a binary expression: "; Str (ts.getText node)] ;;
   this <- JS.deref this ;;
   match node with
   | ts.BinaryExpression _ lhs operatorToken rhs =>
       match jumpTable (ts.kind operatorToken) with
       | Some visitFn =>
           invoke visitBinaryExpression visitFn context
             lhs (Some operatorToken) (Some rhs)
       | None =>
           warn [Str "found an unspecified operator: ";
                 Str (ts.getText operatorToken); Str ", ";
                 KindName (ts.kind node)] ;;
           JS.ret Undefined
       end
   | _ => JS.throw TypeError
   end)%js.

Definition visitCondition (this : option t) (context : CustomContext)
    (node : option ts.Node) : M Value :=
  (this <- JS.deref this ;;
   node <- JS.deref node ;;
   match jumpTable (ts.kind node) with
   | Some visitFn =>
       invoke visitBinaryExpression visitFn context node None None
   | None =>
       warn [Str "found an unspecified condition: ";
             Str (ts.getText node); Str ", "; KindName (ts.kind node)] ;;
       JS.ret Undefined
   end)%js.

End Evaluator.
End ConditionEvaluator.

(** ** The context tree *)

(** The classes [Context], [ContextConditional] and [ContextAssignment]
    (./Contexts/) and the type [LineNumbers] (./Types) are imported by the
    analyzer and are not among the sources; what the analyzer calls on them
    is modelled here from the data model of the spec. *)

(** Modelled from the spec: [LineNumbers] (./Types), the source line range
    [start, end] of an [if] statement. *)
Record LineNumbers := { startLine : nat; endLine : nat }.

(** Modelled from the spec: the context node of ./Contexts/, in its three
    variants, each with an ordered list of children.  The Root context owns
    the symbol table.  The Conditional context carries the branch predicate,
    the line range of the [if] statement and the transient polarity flag
    that says which branch is being visited; a child added to it belongs to
    the polarity in force when it is added, and the context records whether
    an else branch was visited.  The Assignment context carries a variable
    name and an expression.  The parent link is the non-owning back-link
    that the spec allows to omit. *)
Inductive Context :=
  | Root (children : list Context)
  | Conditional (condition : option ts.Node)
      (lineNumbers : option LineNumbers)
      (visitingTrue visitedFalse : bool)
      (thenChildren elseChildren : list Context)
  | Assignment (varName : string) (expression : option ts.Node)
      (children : list Context).

(** What a visitor of the analyzer can change besides the context it is
    handed: the console, and the symbol table of the one Root context above
    every context of an analysis, which [addVar] reaches from any of them. *)
Record World := {
  symbols : gmap string string;
  console : list ConsoleEntry;
}.

Module Contexts.
(** Modelled from the spec: [new ContextConditional({ context })], a
    conditional with nothing set and no children. *)
Definition newConditional : Context := Conditional None None true false [] [].

(** Modelled from the spec: [new ContextAssignment({ context })] followed by
    [setVarName] and [setExpression]. *)
Definition newAssignment (varName : string) (expression : option ts.Node)
    : Context :=
  Assignment varName expression [].

(** Modelled from the spec: [context.addChild(child)] appends the child to
    the ordered list of children, under a Conditional context to the list of
    the polarity being visited. *)
Definition addChild (context child : Context) : Context :=
  match context with
  | Root children => Root (children ++ [child])
  | Conditional c l true f thenChildren elseChildren =>
      Conditional c l true f (thenChildren ++ [child]) elseChildren
  | Conditional c l false f thenChildren elseChildren =>
      Conditional c l false f thenChildren (elseChildren ++ [child])
  | Assignment v e children => Assignment v e (children ++ [child])
  end.

(** Modelled from the spec: [setLineNumbers] records the line range of the
    [if] statement. *)
Definition setLineNumbers (l : LineNumbers) (context : Context) : Context :=
  match context with
  | Conditional c _ v f tc ec => Conditional c (Some l) v f tc ec
  | _ => context
  end.

(** Modelled from the spec: [setCondition] stores the branch predicate. *)
Definition setCondition (c : ts.Node) (context : Context) : Context :=
  match context with
  | Conditional _ l v f tc ec => Conditional (Some c) l v f tc ec
  | _ => context
  end.

(** Modelled from the spec: [setVisitingTrue] sets the polarity to true. *)
Definition setVisitingTrue (context : Context) : Context :=
  match context with
  | Conditional c l _ f tc ec => Conditional c l true f tc ec
  | _ => context
  end.

(** Modelled from the spec: [setVisitingFalse] switches the polarity to
    false, which records the else branch. *)
Definition setVisitingFalse (context : Context) : Context :=
  match context with
  | Conditional c l _ _ tc ec => Conditional c l false true tc ec
  | _ => context
  end.

(** Modelled from the spec: [context.addVar(name, type)] registers the pair
    in the symbol table of the nearest Root context. *)
Definition addVar (context : Context) (name type : string)
    : JS.M World unit :=
  JS.modify (fun w => {| symbols := <[name := type]> (symbols w);
                         console := console w |}).
End Contexts.

(** ** ProgramAnalyzer (src/unnamed/part_000, lines 140-506) *)

Module ProgramAnalyzer.

Definition M : Type -> Type := JS.M World.

Definition console_log (args : list Arg) : M unit :=
  JS.modify (fun w => {| symbols := symbols w;
                         console := console w ++ [ConsoleLog args] |}).

Definition console_warn (args : list Arg) : M unit :=
  JS.modify (fun w => {| symbols := symbols w;
                         console := console w ++ [ConsoleWarn args] |}).

Definition LOGGING : bool := false.
Definition WARNING : bool := true.

Definition log (args : list Arg) : M unit :=
  if LOGGING then console_log args else JS.ret tt.

Definition warn (args : list Arg) : M unit :=
  if WARNING then console_warn args else JS.ret tt.

(** The methods that the constructor stores in [jumpTable]. *)
Inductive Visitor :=
  | VisitArrowFunction | VisitBinaryExpression | VisitBlock
  | VisitClassDeclaration | VisitConditionalExpression | VisitEqualsToken
  | VisitExpressionStatement | VisitFirstStatement
  | VisitFunctionDeclaration | VisitGreaterThanToken
  | VisitEqualsGreaterThanToken | VisitIdentifier | VisitIfStatement
  | VisitLessThanToken | VisitLessThanEqualsToken | VisitNumericLiteral
  | VisitParameter | VisitPropertyAccessExpression
  | VisitPropertyDeclaration | VisitStringLiteral | VisitSourceFile
  | VisitSyntaxList | VisitThisKeyword | VisitVariableDeclaration
  | VisitVariableDeclarationList | VisitReturnStatement.

Definition jumpTable (k : SyntaxKind) : option Visitor :=
  match k with
  | SyntaxKind.ArrowFunction => Some VisitArrowFunction
  | SyntaxKind.BinaryExpression => Some VisitBinaryExpression
  | SyntaxKind.Block => Some VisitBlock
  | SyntaxKind.ClassDeclaration => Some VisitClassDeclaration
  | SyntaxKind.ConditionalExpression => Some VisitConditionalExpression
  | SyntaxKind.EqualsToken => Some VisitEqualsToken
  | SyntaxKind.ExpressionStatement => Some VisitExpressionStatement
  | SyntaxKind.FirstStatement => Some VisitFirstStatement
  | SyntaxKind.FunctionDeclaration => Some VisitFunctionDeclaration
  | SyntaxKind.GreaterThanToken => Some VisitGreaterThanToken
  | SyntaxKind.GreaterThanEqualsToken => Some VisitEqualsGreaterThanToken
  | SyntaxKind.Identifier => Some VisitIdentifier
  | SyntaxKind.IfStatement => Some VisitIfStatement
  | SyntaxKind.LessThanToken => Some VisitLessThanToken
  | SyntaxKind.LessThanEqualsToken => Some VisitLessThanEqualsToken
  | SyntaxKind.NumericLiteral => Some VisitNumericLiteral
  | SyntaxKind.Parameter_ => Some VisitParameter
  | SyntaxKind.PropertyAccessExpression => Some VisitPropertyAccessExpression
  | SyntaxKind.PropertyDeclaration => Some VisitPropertyDeclaration
  | SyntaxKind.StringLiteral => Some VisitStringLiteral
  | SyntaxKind.SourceFile => Some VisitSourceFile
  | SyntaxKind.SyntaxList => Some VisitSyntaxList
  | SyntaxKind.ThisKeyword => Some VisitThisKeyword
  | SyntaxKind.VariableDeclaration => Some VisitVariableDeclaration
  | SyntaxKind.VariableDeclarationList => Some VisitVariableDeclarationList
  | SyntaxKind.ReturnStatement => Some VisitReturnStatement
  | _ => None
  end.

(** [nodes.forEach((n) => { this.visitNode(context, n); })]: the context
    object is the same throughout, so each visit starts from what the
    previous one left. *)
Definition forEach (visit : Context -> ts.Node -> M Context)
    : list ts.Node -> Context -> M Context :=
  fix each nodes context :=
    match nodes with
    | [] => JS.ret context
    | n :: rest => (context <- visit context n ;; each rest context)%js
    end.

Section Analyzer.
(** [getLineNumbers] (./utils/utils) is not among the sources. *)
Context (getLineNumbers : option ts.Node -> ts.Node -> LineNumbers).

(** The instance field the visitors read. *)
Record t := { sourceFile : option ts.Node }.

(** The visitors are arrow functions, so [this] is the analyzer wherever
    they are called from.  [visitNode] is the recursive knot: each visitor
    takes it as its first argument.  A visitor that reads a field from a
    node without it gets [undefined]. *)
Section Visitors.
Context (visitNode : Context -> ts.Node -> M Context) (this : t).

Definition visitExpressionStatement (context : Context) (node : ts.Node)
    : M Context :=
  (log [Str "visiting expression statement: "; Str (ts.getText node)] ;;
   match node with
   | ts.ExpressionStatement _ expression => visitNode context expression
   | _ => JS.throw TypeError
   end)%js.

Definition visitClassDeclaration (context : Context) (node : ts.Node)
    : M Context :=
  (log [Str "Visiting class declaration: "; Str (ts.getText node)] ;;
   match node with
   | ts.ClassDeclaration _ members => forEach visitNode members context
   | _ => JS.throw TypeError
   end)%js.

Definition visitPropertyDeclaration (context : Context) (node : ts.Node)
    : M Context :=
  (log [Str "Visiting property declaration: "; Str (ts.getText node)] ;;
   match node with
   | ts.PropertyDeclaration _ (Some initializer) =>
       visitNode context initializer
   | _ => JS.ret context
   end)%js.

Definition visitSourceFile (context : Context) (node : ts.Node)
    : M Context :=
  match node with
  | ts.SourceFile _ statements => forEach visitNode statements context
  | _ => JS.throw TypeError
  end.

(** The source links [currContext] into [context] before filling it;
    the object is shared, so the parent ends up holding the filled
    conditional.  Here the link is made once the conditional is
    complete. *)
Definition visitIfStatement (context : Context) (node : ts.Node)
    : M Context :=
  (log [Str "found an if statement"] ;;
   match node with
   | ts.IfStatement _ expression thenStatement elseStatement =>
       let currContext := Contexts.newConditional in
       let conditionLineNumbers := getLineNumbers (sourceFile this) node in
       let currContext :=
         Contexts.setLineNumbers conditionLineNumbers currContext in
       let currContext := Contexts.setCondition expression currContext in
       let currContext := Contexts.setVisitingTrue currContext in
       currContext <- visitNode currContext expression ;;
       currContext <- visitNode currContext thenStatement ;;
       currContext <-
         match elseStatement with
         | Some elseStatement =>
             visitNode (Contexts.setVisitingFalse currContext) elseStatement
         | None => JS.ret currContext
         end ;;
       JS.ret (Contexts.addChild context currContext)
   | _ => JS.throw TypeError
   end)%js.

Definition visitConditionalExpression (context : Context)
    (node : ts.Node) : M Context :=
  (log [Str "Found a conditional expression: "; Str (ts.getText node)] ;;
   JS.ret context)%js.

Definition visitBinaryExpression (context : Context) (node : ts.Node)
    : M Context :=
  (log [Str "Found a binary expression: "; Str (ts.getText node)] ;;
   match node with
   | ts.BinaryExpression _ lhs operatorToken rhs =>
       if bool_decide (ts.getText operatorToken = "="%string) then
         let newContext :=
           Contexts.newAssignment (ts.getText lhs) (Some rhs) in
         JS.ret (Contexts.addChild context newContext)
       else
         context <- visitNode context lhs ;;
         context <- visitNode context operatorToken ;;
         visitNode context rhs
   | _ => JS.throw TypeError
   end)%js.

Definition visitEqualsGreaterThanToken (context : Context)
    (node : ts.Node) : M Context :=
  (log [Str "Found a greater than equals token: "; Str (ts.getText node)] ;;
   JS.ret context)%js.

Definition visitParameter (context : Context) (node : ts.Node)
    : M Context :=
  match node with
  | ts.Parameter_ _ name type =>
      (type <- JS.deref type ;;
       log [Str "Found a parameter: "; Str (ts.getText name); Str ": ";
            Str (ts.getText type)] ;;
       Contexts.addVar context (ts.getText name) (ts.getText type) ;;
       JS.ret context)%js
  | _ => JS.throw TypeError
  end.

Definition visitIdentifier (context : Context) (node : ts.Node)
    : M Context :=
  (log [Str "Found an identifier: "; Str (ts.getText node)] ;;
   JS.ret context)%js.

Definition visitStringLiteral (context : Context) (node : ts.Node)
    : M Context :=
  (log [Str "Found a string literal: "; Str (ts.getText node)] ;;
   JS.ret context)%js.

(** Defined by the class and stored nowhere in the jump table. *)
Definition visitFirstLiteralToken (context : Context) (node : ts.Node)
    : M Context :=
  (log [Str "Found a first literal token: "; Str (ts.getText node)] ;;
   JS.ret context)%js.

Definition visitVariableDeclarationList (context : Context)
    (node : ts.Node) : M Context :=
  (log [Str "Found a variable declaration list: "; Str (ts.getText node)] ;;
   match node with
   | ts.VariableDeclarationList _ declarations =>
       forEach visitNode declarations context
   | _ => JS.throw TypeError
   end)%js.

Definition visitVariableDeclaration (context : Context) (node : ts.Node)
    : M Context :=
  (log [Str "Found variable declaration: "; Str (ts.getText node)] ;;
   match node with
   | ts.VariableDeclaration _ name type initializer =>
       match type with
       | Some type =>
           Contexts.addVar context (ts.getText name) (ts.getText type)
       | None => JS.ret tt
       end ;;
       let newContext :=
         Contexts.newAssignment (ts.getText name) initializer in
       let context := Contexts.addChild context newContext in
       context <- visitNode context name ;;
       match initializer with
       | Some initializer => visitNode context initializer
       | None => JS.ret context
       end
   | _ => JS.throw TypeError
   end)%js.

Definition visitGreaterThanToken (context : Context) (node : ts.Node)
    : M Context :=
  (log [Str "Found greater than token: "; Str (ts.getText node)] ;;
   JS.ret context)%js.

Definition visitLessThanToken (context : Context) (node : ts.Node)
    : M Context :=
  (log [Str "Found less than token: "; Str (ts.getText node)] ;;
   JS.ret context)%js.

Definition visitNumericLiteral (context : Context) (node : ts.Node)
    : M Context :=
  (log [Str "Found a numeric literal: "; Str (ts.getText node)] ;;
   JS.ret context)%js.

Definition visitArrowFunction (context : Context) (node : ts.Node)
    : M Context :=
  (log [Str "Found an arrow function: "; Str (ts.getText node)] ;;
   match node with
   | ts.ArrowFunction _ parameters body =>
       context <- forEach visitNode parameters context ;;
       visitNode context body
   | _ => JS.throw TypeError
   end)%js.

Definition visitFirstStatement (context : Context) (node : ts.Node)
    : M Context :=
  (log [Str "Visiting first statement: "; Str (ts.getText node)] ;;
   match node with
   | ts.FirstStatement _ children => forEach visitNode children context
   | _ => JS.ret context
   end)%js.

Definition visitEqualsToken (context : Context) (node : ts.Node)
    : M Context :=
  (log [Str "Visiting equals token: "; Str (ts.getText node)] ;;
   JS.ret context)%js.

Definition visitBlock (context : Context) (node : ts.Node) : M Context :=
  (log [Str "Visiting block"] ;;
   match node with
   | ts.Block _ children => forEach visitNode children context
   | _ => JS.ret context
   end)%js.

Definition visitSyntaxList (context : Context) (node : ts.Node)
    : M Context :=
  (log [Str "visiting syntax list: "; Str (ts.getText node)] ;;
   match node with
   | ts.SyntaxList _ children => forEach visitNode children context
   | _ => JS.ret context
   end)%js.

Definition visitFunctionDeclaration (context : Context) (node : ts.Node)
    : M Context :=
  (log [Str "Visiting function declaration"] ;;
   log [Str "add new test here"] ;;
   match node with
   | ts.FunctionDeclaration _ parameters body =>
       context <- forEach visitNode parameters context ;;
       match body with
       | Some body => visitNode context body
       | None => JS.ret context
       end
   | _ => JS.throw TypeError
   end)%js.

Definition visitLessThanEqualsToken (context : Context) (node : ts.Node)
    : M Context :=
  (log [Str "Visiting less than equals token: "; Str (ts.getText node)] ;;
   JS.ret context)%js.

Definition visitPropertyAccessExpression (context : Context)
    (node : ts.Node) : M Context :=
  (log [Str "Visiting property access expression: ";
        Str (ts.getText node)] ;;
   match node with
   | ts.PropertyAccessExpression _ expression name =>
       context <- visitNode context expression ;;
       visitNode context name
   | _ => JS.throw TypeError
   end)%js.

Definition visitReturnStatement (context : Context) (node : ts.Node)
    : M Context :=
  (log [Str "Visiting return statement: "; Str (ts.getText node)] ;;
   JS.ret context)%js.

Definition visitThisKeyword (context : Context) (node : ts.Node)
    : M Context :=
  (log [Str "Visiting ThisKeyword: "; Str (ts.getText node)] ;;
   JS.ret context)%js.

(** [visitFn(context, node)] for a function taken out of the jump
    table. *)
Definition invoke (visitFn : Visitor) : Context -> ts.Node -> M Context :=
  match visitFn with
  | VisitArrowFunction => visitArrowFunction
  | VisitBinaryExpression => visitBinaryExpression
  | VisitBlock => visitBlock
  | VisitClassDeclaration => visitClassDeclaration
  | VisitConditionalExpression => visitConditionalExpression
  | VisitEqualsToken => visitEqualsToken
  | VisitExpressionStatement => visitExpressionStatement
  | VisitFirstStatement => visitFirstStatement
  | VisitFunctionDeclaration => visitFunctionDeclaration
  | VisitGreaterThanToken => visitGreaterThanToken
  | VisitEqualsGreaterThanToken => visitEqualsGreaterThanToken
  | VisitIdentifier => visitIdentifier
  | VisitIfStatement => visitIfStatement
  | VisitLessThanToken => visitLessThanToken
  | VisitLessThanEqualsToken => visitLessThanEqualsToken
  | VisitNumericLiteral => visitNumericLiteral
  | VisitParameter => visitParameter
  | VisitPropertyAccessExpression => visitPropertyAccessExpression
  | VisitPropertyDeclaration => visitPropertyDeclaration
  | VisitStringLiteral => visitStringLiteral
  | VisitSourceFile => visitSourceFile
  | VisitSyntaxList => visitSyntaxList
  | VisitThisKeyword => visitThisKeyword
  | VisitVariableDeclaration => visitVariableDeclaration
  | VisitVariableDeclarationList => visitVariableDeclarationList
  | VisitReturnStatement => visitReturnStatement
  end.
End Visitors.

Fixpoint visitNode (this : t) (context : Context) (node : ts.Node)
    {struct node} : M Context :=
  match jumpTable (ts.kind node) with
  | Some visitFn => invoke (visitNode this) this visitFn context node
  | None =>
      (warn [Str "found an unspecified node: "; Str (ts.getText node);
             Str ", "; KindName (ts.kind node)] ;;
       JS.ret context)%js
  end.

End Analyzer.
End ProgramAnalyzer.

(** ** The analysis pipeline: [ProgramAnalyzer.analyze] (lines 210-273) *)

Module Pipeline.

(** What [reject] is called with: [JSON.stringify({ error })], or the
    exception that escaped the executor of the promise. *)
Inductive Reason :=
  | ErrorDocument (error : string)
  | Thrown (e : Error).

(** The stages of one request, in the order of the source. *)
Inductive Stage :=
  | Precheck | ContextTree | PathEnumeration | StatementProcessing
  | SmtSolving.

Section Analyze.
(** Collaborators that are not among the sources: the types [Path],
    [Condition] and [PathNote]; [TypescriptValidator]; [getLastLineNumber]
    and [getLineNumbers]; [ContextPathsEvaluator] with its visitor context;
    [ProgramStatementProcessor]; [ContextToZ3], whose promise either
    delivers the notes or fails with a message. *)
Context {Path Condition PathNote : Type}.
Context (getFullText : ts.Node -> string)
        (checkProgramIsValidTypescript : string -> list string)
        (getLastLineNumber : ts.Node -> nat)
        (getLineNumbers : option ts.Node -> ts.Node -> LineNumbers)
        (getChildPaths : gmap string string -> Context -> list Path)
        (processProgramStatementLists : list Path -> list (list Condition))
        (toString : Condition -> string)
        (vars : Condition -> string)
        (checkPaths : nat -> gmap string string -> Context ->
                      list (list Condition) -> list PathNote + string).

(** A promise settles once: later calls of [resolve] and [reject] do
    nothing. *)
Inductive Promise :=
  | Pending
  | Fulfilled (notes : list PathNote)
  | Rejected (reason : Reason).

Definition resolve (notes : list PathNote) (p : Promise) : Promise :=
  match p with
  | Pending => Fulfilled notes
  | _ => p
  end.

Definition reject (reason : Reason) (p : Promise) : Promise :=
  match p with
  | Pending => Rejected reason
  | _ => p
  end.

(** What one call of [analyze] leaves behind: the promise, the console,
    the stages that ran, and what [checkPaths] delivered if it was
    called. *)
Record Run := {
  promise : Promise;
  output : list ConsoleEntry;
  stages : list Stage;
  solved : option (list PathNote + string);
}.

Definition precheckMessage (diagnostics : list string) : string :=
  ("Analysis cannot be completed as source file does not meet "
   +:+ "precheck requirements: "
   +:+ String.concat " " diagnostics)%string.

Definition logConditionList (path : list Condition) : list ConsoleEntry :=
  map (fun condition =>
         ConsoleLog [Str "condition vars: "; Str (vars condition)]) path
  ++ [ConsoleLog [Str ("[ " +:+ String.concat ", " (map toString path));
                  Str "]"]].

Definition analyze (sourceFile : ts.Node) : Run :=
  let this := {| ProgramAnalyzer.sourceFile := Some sourceFile |} in
  let diagnostics := checkProgramIsValidTypescript (getFullText sourceFile) in
  let promise :=
    if (0 <? length diagnostics)%nat
    then reject (ErrorDocument (precheckMessage diagnostics)) Pending
    else Pending in
  let programLastLineNumber := getLastLineNumber sourceFile in
  let context := Root [] in
  match ProgramAnalyzer.visitNode getLineNumbers this context sourceFile
          {| symbols := ∅; console := [] |} with
  | (Throw e, w) =>
      {| promise := reject (Thrown e) promise;
         output := console w;
         stages := [Precheck; ContextTree];
         solved := None |}
  | (Normal context, w) =>
      let out := console w ++ [ConsoleLog [Str "========="];
                               ConsoleLog [Str "GETTING PATHS"];
                               ConsoleLog [Str "========="]] in
      let programStatementLists := getChildPaths (symbols w) context in
      let conditionLists :=
        processProgramStatementLists programStatementLists in
      let out := out ++ flat_map logConditionList conditionLists in
      let out := out ++ [ConsoleLog [Str "Z3 Check"]] in
      let result :=
        checkPaths programLastLineNumber (symbols w) context conditionLists in
      let all := [Precheck; ContextTree; PathEnumeration;
                  StatementProcessing; SmtSolving] in
      match result with
      | inl notes =>
          {| promise := resolve notes promise;
             output := out;
             stages := all;
             solved := Some result |}
      | inr message =>
          {| promise := reject (ErrorDocument message) promise;
             output := out ++ [ConsoleError [Str "Error during analysis: ";
                                             Str message]];
             stages := all;
             solved := Some result |}
      end
  end.
End Analyze.
End Pipeline.

(** ** The path enumerator *)

(** [ContextPathsEvaluator] and [ContextPathsVisitorContext]
    (./Evaluators/ContextEvaluator) are imported by the analyzer and are not
    among the sources; the enumerator below follows the Path Enumerator of
    the spec. *)
Module ContextPathsEvaluator.

(** Modelled from the spec: one element of a Path, a context of the tree;
    a Conditional context is tagged with the polarity of the continuation. *)
Inductive Step :=
  | AtRoot
  | AtConditional (condition : option ts.Node)
      (lineNumbers : option LineNumbers) (polarity : bool)
  | AtAssignment (varName : string) (expression : option ts.Node).

(** Modelled from the spec: a Path, the ordered sequence of contexts from
    the root to a leaf. *)
Definition Path : Type := list Step.

Section Enumerator.
(** For an [if] without [else] the spec says in one place that the false
    continuation is still emitted, with nothing under it, and in another
    that only one continuation is yielded: [emptyElsePath] selects between
    the two readings. *)
Context (emptyElsePath : bool).

(** Modelled from the spec: the paths below a context whose children are
    [children], in insertion order; a path ends at a leaf. *)
Definition descend (paths : Context -> list Path) (children : list Context)
    : list Path :=
  match children with
  | [] => [[]]
  | _ => flat_map paths children
  end.

(** Modelled from the spec: the Path Enumerator, a depth-first traversal
    that yields every root-to-leaf sequence of contexts in pre-order.  A
    Conditional context yields the continuation of its true polarity and
    then that of its false polarity; any other context descends through its
    children. *)
Fixpoint paths (context : Context) : list Path :=
  match context with
  | Root children => map (cons AtRoot) (descend paths children)
  | Conditional c l _ visitedFalse thenChildren elseChildren =>
      map (cons (AtConditional c l true)) (descend paths thenChildren)
      ++ (if visitedFalse || emptyElsePath
          then map (cons (AtConditional c l false))
                   (descend paths elseChildren)
          else [])
  | Assignment v e children =>
      map (cons (AtAssignment v e)) (descend paths children)
  end.

(** The polarity with which a path enters the conditional it starts at. *)
Definition polarity (p : Path) : option bool :=
  match p with
  | AtConditional _ _ b :: _ => Some b
  | _ => None
  end.

(** [occurs c root steps]: the context [c] lies in the tree of [root] where
    the enumerator reaches it, and [steps] are the steps from [root] down to
    it, its own step left out. *)
Inductive occurs (c : Context) : Context -> Path -> Prop :=
  | occurs_here : occurs c c []
  | occurs_root children child steps :
      child ∈ children -> occurs c child steps ->
      occurs c (Root children) (AtRoot :: steps)
  | occurs_then cond l v f thenChildren elseChildren child steps :
      child ∈ thenChildren -> occurs c child steps ->
      occurs c (Conditional cond l v f thenChildren elseChildren)
        (AtConditional cond l true :: steps)
  | occurs_else cond l v f thenChildren elseChildren child steps :
      f || emptyElsePath = true ->
      child ∈ elseChildren -> occurs c child steps ->
      occurs c (Conditional cond l v f thenChildren elseChildren)
        (AtConditional cond l false :: steps)
  | occurs_assignment x e children child steps :
      child ∈ children -> occurs c child steps ->
      occurs c (Assignment x e children) (AtAssignment x e :: steps).

(** Modelled from the spec: the leaves of the Context tree, one for each
    Path (testable property 1).  A context without children is a leaf; each
    continuation of a Conditional context that the enumerator yields ends
    in a leaf of its own when nothing is under it. *)
Definition leavesBelow (leaves : Context -> nat) (children : list Context)
    : nat :=
  match children with
  | [] => 1
  | _ => list_sum (map leaves children)
  end.

Fixpoint leaves (context : Context) : nat :=
  match context with
  | Root children => leavesBelow leaves children
  | Conditional _ _ _ visitedFalse thenChildren elseChildren =>
      leavesBelow leaves thenChildren
      + (if visitedFalse || emptyElsePath
         then leavesBelow leaves elseChildren
         else 0)
  | Assignment _ _ children => leavesBelow leaves children
  end.
End Enumerator.
End ContextPathsEvaluator.

(** ** Reading a context *)

Module ContextView.

(** The list that receives the next child of a context. *)
Definition currentChildren (context : Context) : list Context :=
  match context with
  | Root children => children
  | Conditional _ _ true _ thenChildren _ => thenChildren
  | Conditional _ _ false _ _ elseChildren => elseChildren
  | Assignment _ _ children => children
  end.

(** [extends c c']: [c'] is the object [c] after more children were added
    to it; nothing else about it has changed. *)
Definition extends (c c' : Context) : Prop :=
  match c with
  | Root children => exists more, c' = Root (children ++ more)
  | Conditional cond l v f thenChildren elseChildren =>
      exists more1 more2,
        c' = Conditional cond l v f (thenChildren ++ more1)
               (elseChildren ++ more2)
  | Assignment x e children =>
      exists more, c' = Assignment x e (children ++ more)
  end.

(** [grows f]: whenever the visit [f] completes normally, the context it
    returns extends the one it was handed. *)
Definition grows (f : Context -> ProgramAnalyzer.M Context) : Prop :=
  forall c w c' w', f c w = (Normal c', w') -> extends c c'.

End ContextView.

(** ** Structural induction on nodes *)

Module NodeInduction.

Definition optional (o : option ts.Node) : list ts.Node :=
  match o with
  | Some n => [n]
  | None => []
  end.

(** The nodes one field away from a node. *)
Definition subnodes (node : ts.Node) : list ts.Node :=
  match node with
  | ts.Token _ _ => []
  | ts.SourceFile _ l | ts.SyntaxList _ l | ts.Block _ l
  | ts.FirstStatement _ l | ts.ClassDeclaration _ l
  | ts.VariableDeclarationList _ l => l
  | ts.ExpressionStatement _ e | ts.NonNullExpression _ e => [e]
  | ts.PropertyDeclaration _ i => optional i
  | ts.IfStatement _ e t el => e :: t :: optional el
  | ts.BinaryExpression _ l o r => [l; o; r]
  | ts.Parameter_ _ n ty => n :: optional ty
  | ts.VariableDeclaration _ n ty i => n :: optional ty ++ optional i
  | ts.ArrowFunction _ ps b => ps ++ [b]
  | ts.FunctionDeclaration _ ps b => ps ++ optional b
  | ts.PropertyAccessExpression _ e n => [e; n]
  end.

End NodeInduction.

(** ** Sample programs and a term-building z3 *)

Module Samples.

(** A stand-in for the z3 binding that builds the term it is asked for. *)
Inductive Rel := RelGT | RelGE | RelLT | RelLE | RelEq.

Inductive Term :=
  | IntConst (name : string)
  | IntVal (n : Z)
  | Compare (op : Rel) (a b : @ConditionEvaluator.Value Term).

Definition compare (op : Rel) (a b : @ConditionEvaluator.Value Term)
    : Completion (@ConditionEvaluator.Value Term) :=
  Normal (ConditionEvaluator.Expr (Compare op a b)).

Definition z3 : @ConditionEvaluator.Z3Context Term :=
  {| ConditionEvaluator.GT := compare RelGT;
     ConditionEvaluator.GE := compare RelGE;
     ConditionEvaluator.LT := compare RelLT;
     ConditionEvaluator.LE := compare RelLE;
     ConditionEvaluator.Eq := compare RelEq |}.

Definition intConst (name : string) : @ConditionEvaluator.Value Term :=
  ConditionEvaluator.Expr (IntConst name).

(** An evaluator after [init], for a path with the parameters [a] and [b]. *)
Definition evaluator : @ConditionEvaluator.t Term :=
  {| ConditionEvaluator.z3Context := Some z3;
     ConditionEvaluator.pathParams :=
       {[ "a"%string := intConst "a"; "b"%string := intConst "b" ]} |}.

Definition identifier (name : string) : ts.Node :=
  ts.Token SyntaxKind.Identifier name.

Definition numeral (digits : string) : ts.Node :=
  ts.Token SyntaxKind.NumericLiteral digits.

Definition binary (lhs : ts.Node) (k : SyntaxKind) (op : string)
    (rhs : ts.Node) : ts.Node :=
  ts.BinaryExpression (ts.getText lhs +:+ " " +:+ op +:+ " " +:+ ts.getText rhs)
    lhs (ts.Token k op) rhs.

(** [{ return <value>; }] as [getChildren()] shows it. *)
Definition returnBlock (value : string) : ts.Node :=
  ts.Block ("{ return " +:+ value +:+ "; }")
    [ts.Token SyntaxKind.OpenBraceToken "{";
     ts.SyntaxList ("return " +:+ value +:+ ";")
       [ts.Token SyntaxKind.ReturnStatement ("return " +:+ value +:+ ";")];
     ts.Token SyntaxKind.CloseBraceToken "}"].

Definition block (statement : ts.Node) : ts.Node :=
  ts.Block ("{ " +:+ ts.getText statement +:+ " }")
    [ts.Token SyntaxKind.OpenBraceToken "{";
     ts.SyntaxList (ts.getText statement) [statement];
     ts.Token SyntaxKind.CloseBraceToken "}"].

Definition ifElse (condition thenStatement elseStatement : ts.Node)
    : ts.Node :=
  ts.IfStatement
    ("if (" +:+ ts.getText condition +:+ ") " +:+ ts.getText thenStatement
     +:+ " else " +:+ ts.getText elseStatement)
    condition thenStatement (Some elseStatement).

(** [if (a > 0) { if (a < 5) { return 1; } else { return 2; } }
    else { return 3; }] *)
Definition innerIf : ts.Node :=
  ifElse (binary (identifier "a") SyntaxKind.LessThanToken "<" (numeral "5"))
    (returnBlock "1") (returnBlock "2").

Definition nestedIf : ts.Node :=
  ifElse (binary (identifier "a") SyntaxKind.GreaterThanToken ">" (numeral "0"))
    (block innerIf) (returnBlock "3").

(** [if (a > b) { return 1; } else { return 2; }] *)
Definition flatIf : ts.Node :=
  ifElse (binary (identifier "a") SyntaxKind.GreaterThanToken ">"
            (identifier "b"))
    (returnBlock "1") (returnBlock "2").

Definition ifOnly (condition thenStatement : ts.Node) : ts.Node :=
  ts.IfStatement
    ("if (" +:+ ts.getText condition +:+ ") " +:+ ts.getText thenStatement)
    condition thenStatement None.

(** The bodies of the spec's scenarios S2 and S3:
    [if (a > 0) { if (a < 0) { return 1; } }] and
    [const x = 5; if (a == x) { if (a != 5) { return 1; } }]. *)
Definition scenario2 : ts.Node :=
  ifOnly (binary (identifier "a") SyntaxKind.GreaterThanToken ">" (numeral "0"))
    (block (ifOnly (binary (identifier "a") SyntaxKind.LessThanToken "<"
                      (numeral "0"))
              (returnBlock "1"))).

Definition scenario3 : ts.Node :=
  ts.SyntaxList "const x = 5; if (a == x) { if (a != 5) { return 1; } }"
    [ts.FirstStatement "const x = 5;"
       [ts.VariableDeclarationList "const x = 5"
          [ts.VariableDeclaration "x = 5" (identifier "x") None
             (Some (numeral "5"))];
        ts.Token SyntaxKind.SemicolonToken ";"];
     ifOnly (binary (identifier "a") SyntaxKind.EqualsEqualsToken "=="
               (identifier "x"))
       (block (ifOnly (binary (identifier "a")
                         SyntaxKind.ExclamationEqualsToken "!=" (numeral "5"))
                 (returnBlock "1")))].

(** Line ranges are read off the source text by a helper that is not
    modelled; the samples put every statement on line 1. *)
Definition lineNumbers (sourceFile : option ts.Node) (node : ts.Node)
    : LineNumbers :=
  {| startLine := 1; endLine := 1 |}.

Definition analyzer : ProgramAnalyzer.t :=
  {| ProgramAnalyzer.sourceFile := None |}.

Definition emptyWorld : World := {| symbols := ∅; console := [] |}.

(** [const x: number = nope;] as a whole file: it parses, and the type
    checker reports the unknown name. *)
Definition badDeclaration : ts.Node :=
  ts.VariableDeclaration "x: number = nope" (identifier "x")
    (Some (ts.Token SyntaxKind.NumberKeyword "number"))
    (Some (identifier "nope")).

Definition badSource : ts.Node :=
  ts.SourceFile "const x: number = nope;"
    [ts.FirstStatement "const x: number = nope;"
       [ts.VariableDeclarationList "const x: number = nope" [badDeclaration];
        ts.Token SyntaxKind.SemicolonToken ";"]].

(** What the builder leaves of it. *)
Definition badContext : Context :=
  Root [Assignment "x" (Some (identifier "nope")) []].

Definition badWorld : World :=
  {| symbols := {[ "x"%string := "number"%string ]};
     console := [ConsoleWarn [Str "found an unspecified node: "; Str ";";
                              Str ", "; KindName SyntaxKind.SemicolonToken]] |}.

Definition badDiagnostic : string := "Cannot find name nope.".

Definition badText : string := "const x: number = nope;".

(** Stand-ins for the collaborators of [analyze]: a validator that knows
    the one bad file, the enumerator above, a statement processor that hands
    the paths on as they are, and a solver that finds every path reachable
    and so returns no note. *)
Definition validator (text : string) : list string :=
  if bool_decide (text = badText) then [badDiagnostic] else [].

Definition lastLineNumber (sourceFile : ts.Node) : nat := 1.

Definition childPaths (vars : gmap string string) (context : Context)
    : list ContextPathsEvaluator.Path :=
  ContextPathsEvaluator.paths true context.

Definition statementLists (paths : list ContextPathsEvaluator.Path)
    : list (list ContextPathsEvaluator.Step) :=
  paths.

Definition stepText (s : ContextPathsEvaluator.Step) : string :=
  match s with
  | ContextPathsEvaluator.AtRoot => "root"
  | ContextPathsEvaluator.AtConditional _ _ true => "if"
  | ContextPathsEvaluator.AtConditional _ _ false => "else"
  | ContextPathsEvaluator.AtAssignment x _ => x
  end.

Definition solver (lastLine : nat) (vars : gmap string string)
    (context : Context)
    (conditionLists : list (list ContextPathsEvaluator.Step))
    : list (LineNumbers * bool) + string :=
  inl [].

Definition analyzeSample : ts.Node -> Pipeline.Run :=
  Pipeline.analyze ts.getText validator lastLineNumber lineNumbers
    childPaths statementLists stepText stepText solver.

(** [if (a > b) { return 1; } else { return 2; }] as a whole file, which the
    validator accepts, and what the builder leaves of it. *)
Definition goodSource : ts.Node := ts.SourceFile (ts.getText flatIf) [flatIf].

Definition braceWarnings : list ConsoleEntry :=
  [ConsoleWarn [Str "found an unspecified node: "; Str "{"; Str ", ";
                KindName SyntaxKind.OpenBraceToken];
   ConsoleWarn [Str "found an unspecified node: "; Str "}"; Str ", ";
                KindName SyntaxKind.CloseBraceToken];
   ConsoleWarn [Str "found an unspecified node: "; Str "{"; Str ", ";
                KindName SyntaxKind.OpenBraceToken];
   ConsoleWarn [Str "found an unspecified node: "; Str "}"; Str ", ";
                KindName SyntaxKind.CloseBraceToken]].

Definition goodContext : Context :=
  Root [Conditional
          (Some (binary (identifier "a") SyntaxKind.GreaterThanToken ">"
                   (identifier "b")))
          (Some {| startLine := 1; endLine := 1 |}) false true [] []].

Definition goodWorld : World := {| symbols := ∅; console := braceWarnings |}.

(** What the builder makes of [nestedIf]: the conditional of the inner
    statement is the one child of the outer one, under its true polarity. *)
Definition innerConditional : Context :=
  Conditional
    (Some (binary (identifier "a") SyntaxKind.LessThanToken "<" (numeral "5")))
    (Some {| startLine := 1; endLine := 1 |}) false true [] [].

Definition nestedConditional : Context :=
  Conditional
    (Some (binary (identifier "a") SyntaxKind.GreaterThanToken ">"
             (numeral "0")))
    (Some {| startLine := 1; endLine := 1 |}) false true
    [innerConditional] [].

(** [x = 5] and [a > b] as expressions, [const x = 5] and [let y] as
    declarations. *)
Definition assignFive : ts.Node :=
  binary (identifier "x") SyntaxKind.EqualsToken "=" (numeral "5").

Definition greater : ts.Node :=
  binary (identifier "a") SyntaxKind.GreaterThanToken ">" (identifier "b").

Definition untypedInitialized : ts.Node :=
  ts.VariableDeclaration "x = 5" (identifier "x") None (Some (numeral "5")).

Definition bare : ts.Node :=
  ts.VariableDeclaration "y" (identifier "y") None None.

End Samples.

(** ** Trees the builder walks to the end *)

Module Walk.

(** The kinds whose visitor reads a field it cannot do without: on a node
    object of such a kind that lacks the field the read gives [undefined]
    and the visitor fails.  The parser gives every node the fields of its
    kind. *)
Definition readsFields (k : SyntaxKind) : bool :=
  match k with
  | SyntaxKind.ExpressionStatement | SyntaxKind.ClassDeclaration
  | SyntaxKind.SourceFile | SyntaxKind.IfStatement
  | SyntaxKind.BinaryExpression | SyntaxKind.Parameter_
  | SyntaxKind.VariableDeclarationList | SyntaxKind.VariableDeclaration
  | SyntaxKind.ArrowFunction | SyntaxKind.FunctionDeclaration
  | SyntaxKind.PropertyAccessExpression => true
  | _ => false
  end.

Definition walkableOption (walkable : ts.Node -> bool) (o : option ts.Node)
    : bool :=
  match o with
  | Some n => walkable n
  | None => true
  end.

(** [walkable node]: on the way the builder takes through [node], every
    parameter has a type annotation and every node has the fields its
    visitor reads.  The way does not lead into an assignment [=], nor into a
    node of a kind without visitor, nor into the name or the type of a
    parameter. *)
Fixpoint walkable (node : ts.Node) : bool :=
  match node with
  | ts.Token k _ => negb (readsFields k)
  | ts.SourceFile _ l | ts.SyntaxList _ l | ts.Block _ l
  | ts.FirstStatement _ l | ts.ClassDeclaration _ l
  | ts.VariableDeclarationList _ l => forallb walkable l
  | ts.ExpressionStatement _ e => walkable e
  | ts.NonNullExpression _ _ => true
  | ts.PropertyDeclaration _ i => walkableOption walkable i
  | ts.IfStatement _ e t el =>
      walkable e && (walkable t && walkableOption walkable el)
  | ts.BinaryExpression _ l o r =>
      bool_decide (ts.getText o = "="%string)
      || (walkable l && (walkable o && walkable r))
  | ts.Parameter_ _ _ ty => bool_decide (is_Some ty)
  | ts.VariableDeclaration _ n _ i => walkable n && walkableOption walkable i
  | ts.ArrowFunction _ ps b => forallb walkable ps && walkable b
  | ts.FunctionDeclaration _ ps b =>
      forallb walkable ps && walkableOption walkable b
  | ts.PropertyAccessExpression _ e n => walkable e && walkable n
  end.

(** How a visit ends when [b] says whether the tree is walkable: normally
    with some context, or with a TypeError. *)
Definition endsAs (b : bool) (r : Completion Context * World) : Prop :=
  if b then exists context, fst r = Normal context
  else fst r = Throw TypeError.

(** A node without fields whose kind has a visitor: an identifier, a
    literal, [this], one of the operator tokens of the table, and also a
    return statement or a conditional expression, whose visitors read
    nothing of them. *)
Definition silentLeaf (node : ts.Node) : bool :=
  match node with
  | ts.Token k _ =>
      match ProgramAnalyzer.jumpTable k with
      | Some _ => negb (readsFields k)
      | None => false
      end
  | _ => false
  end.

(** What a parameter declares: its name and the text of its type
    annotation, if it has one. *)
Definition declared (parameter : ts.Node) : option (string * string) :=
  match parameter with
  | ts.Parameter_ _ name (Some type) => Some (ts.getText name, ts.getText type)
  | _ => None
  end.

(** The symbol table after the parameters were registered from left to
    right. *)
Definition register (parameters : list ts.Node) (vars : gmap string string)
    : gmap string string :=
  fold_left (fun vars parameter =>
               match declared parameter with
               | Some (name, type) => <[name := type]> vars
               | None => vars
               end)
            parameters vars.

(** The one kind of console entry the builder produces. *)
Definition unspecifiedNodeWarning (entry : ConsoleEntry) : Prop :=
  exists text k,
    entry = ConsoleWarn [Str "found an unspecified node: "; Str text;
                         Str ", "; KindName k].

(** [w'] is [w] after some visits: the console has gained warnings of that
    kind and nothing else, and the symbol table has lost no name. *)
Definition worldGrows (w w' : World) : Prop :=
  (exists more, console w' = console w ++ more
                /\ Forall unspecifiedNodeWarning more)
  /\ dom (symbols w) ⊆ dom (symbols w').

(** The context after the children [more] were added to it one by one. *)
Definition addChildren (context : Context) (more : list Context) : Context :=
  fold_left Contexts.addChild more context.

(** [uniform f]: what the visit [f] does is the same for every context it
    is handed.  From a given symbol table and console it either adds one
    list of children, the same to every context, or throws. *)
Definition uniform (f : Context -> ProgramAnalyzer.M Context) : Prop :=
  forall w,
    (exists more w', forall c, f c w = (Normal (addChildren c more), w'))
    \/ (exists e w', forall c, f c w = (Throw e, w')).

(** [contextFree node]: on the way the builder takes through [node] there
    is no [if] statement, no variable declaration and no assignment [=]. *)
Fixpoint contextFree (node : ts.Node) : bool :=
  match node with
  | ts.Token _ _ | ts.NonNullExpression _ _ | ts.Parameter_ _ _ _ => true
  | ts.SourceFile _ l | ts.SyntaxList _ l | ts.Block _ l
  | ts.FirstStatement _ l | ts.ClassDeclaration _ l
  | ts.VariableDeclarationList _ l => forallb contextFree l
  | ts.ExpressionStatement _ e => contextFree e
  | ts.PropertyDeclaration _ i => walkableOption contextFree i
  | ts.IfStatement _ _ _ _ | ts.VariableDeclaration _ _ _ _ => false
  | ts.BinaryExpression _ l o r =>
      negb (bool_decide (ts.getText o = "="%string))
      && (contextFree l && (contextFree o && contextFree r))
  | ts.ArrowFunction _ ps b => forallb contextFree ps && contextFree b
  | ts.FunctionDeclaration _ ps b =>
      forallb contextFree ps && walkableOption contextFree b
  | ts.PropertyAccessExpression _ e n => contextFree e && contextFree n
  end.

(** [keeps f]: a visit [f] that completes returns the context it was
    handed. *)
Definition keeps (f : Context -> ProgramAnalyzer.M Context) : Prop :=
  forall c w c' w', f c w = (Normal c', w') -> c' = c.

End Walk.

(** ** The conditional of an [if] statement with an [else] branch *)

Module IfElse.
Section IfElse.
Context (emptyElsePath : bool).
Context (getLineNumbers : option ts.Node -> ts.Node -> LineNumbers).
Context (this : ProgramAnalyzer.t).

Import ContextPathsEvaluator.

Local Abbreviation visit := (ProgramAnalyzer.visitNode getLineNumbers this).
Local Abbreviation paths := (ContextPathsEvaluator.paths emptyElsePath).
Local Abbreviation leaves := (ContextPathsEvaluator.leaves emptyElsePath).

(** The contexts that the visit of [node] adds to the context it is handed,
    read off a visit from the empty root, and the symbol table and console
    it leaves. *)
Definition added (node : ts.Node) (w : World) : list Context :=
  match visit (Root []) node w with
  | (Normal root, _) => ContextView.currentChildren root
  | (Throw _, _) => []
  end.

Definition after (node : ts.Node) (w : World) : World :=
  snd (visit (Root []) node w).

(** The children of the conditional of [if (e) th else el]: under the true
    polarity those that the condition and then the then-statement add, under
    the false polarity those that the else-statement adds. *)
Definition thenChildren (e th : ts.Node) (w : World) : list Context :=
  added e w ++ added th (after e w).

Definition elseChildren (e th el : ts.Node) (w : World) : list Context :=
  added el (after th (after e w)).

Definition lines (text : string) (e th el : ts.Node) : LineNumbers :=
  getLineNumbers (ProgramAnalyzer.sourceFile this)
    (ts.IfStatement text e th (Some el)).

Definition conditional (text : string) (e th el : ts.Node) (w : World)
    : Context :=
  Conditional (Some e) (Some (lines text e th el)) false true
    (thenChildren e th w) (elseChildren e th el w).

(** The paths through the conditional, from its own step on, of either
    polarity. *)
Definition trues (text : string) (e th el : ts.Node) (w : World)
    : list Path :=
  map (cons (AtConditional (Some e) (Some (lines text e th el)) true))
      (descend paths (thenChildren e th w)).

Definition falses (text : string) (e th el : ts.Node) (w : World)
    : list Path :=
  map (cons (AtConditional (Some e) (Some (lines text e th el)) false))
      (descend paths (elseChildren e th el w)).

(** What the builder and the enumerator make of [if (e) th else el] visited
    under [context] from [w], giving [context']:
    - one conditional is added to [context], with the children above;
    - its paths are those of the true polarity followed by those of the
      false polarity;
    - the true-polarity paths are as many as the leaves below the contexts
      that the condition and the then-statement add, the false-polarity
      paths as many as the leaves below those the else-statement adds, at
      least one of each;
    - there are exactly two paths if and only if each side has one leaf, and
      more than two otherwise; there are the two one-step paths when the
      condition and the branches add no context, as when they hold no
      assignment, no declaration and no [if] statement;
    - in the paths of any tree that holds the conditional, the paths through
      it stand together, the true-polarity ones first. *)
Definition trueBeforeFalse (context : Context) (text : string)
    (e th el : ts.Node) (w : World) (context' : Context) : Prop :=
  let c := conditional text e th el w in
  let thenLeaves := leavesBelow leaves (thenChildren e th w) in
  let elseLeaves := leavesBelow leaves (elseChildren e th el w) in
  context' = Contexts.addChild context c
  /\ paths c = trues text e th el w ++ falses text e th el w
  /\ Forall (fun p => polarity p = Some true) (trues text e th el w)
  /\ Forall (fun p => polarity p = Some false) (falses text e th el w)
  /\ length (trues text e th el w) = thenLeaves
  /\ length (falses text e th el w) = elseLeaves
  /\ 1 <= thenLeaves /\ 1 <= elseLeaves
  /\ (length (paths c) = 2 <-> thenLeaves = 1 /\ elseLeaves = 1)
  /\ (2 < length (paths c) <-> 1 < thenLeaves \/ 1 < elseLeaves)
  /\ (added e w = [] -> added th (after e w) = [] ->
      added el (after th (after e w)) = [] ->
      paths c =
        [[AtConditional (Some e) (Some (lines text e th el)) true];
         [AtConditional (Some e) (Some (lines text e th el)) false]])
  /\ (Walk.contextFree e = true -> Walk.contextFree th = true ->
      Walk.contextFree el = true ->
      paths c =
        [[AtConditional (Some e) (Some (lines text e th el)) true];
         [AtConditional (Some e) (Some (lines text e th el)) false]])
  /\ (forall root steps, occurs emptyElsePath c root steps ->
        exists before behind,
          paths root =
            before ++ map (app steps) (trues text e th el w)
              ++ map (app steps) (falses text e th el w) ++ behind).

End IfElse.
End IfElse.

(** ** What an evaluation can end in *)

Module EvaluatorView.

(** [noExpression r]: the evaluation [r] ended in a TypeError or returned
    [undefined]; it returned no expression and no other value. *)
Definition noExpression {Z3Expr : Type}
    (r : Completion (@ConditionEvaluator.Value Z3Expr) * list ConsoleEntry)
    : Prop :=
  fst r = Throw TypeError \/ fst r = Normal ConditionEvaluator.Undefined.

End EvaluatorView.

(** ** The program of [testAnalyze] (src/unnamed/part_001, lines 38-53) *)

Module TestProgram.

Import Samples.

Definition constant (name value : string) : ts.Node :=
  ts.FirstStatement ("const " +:+ name +:+ " = " +:+ value +:+ ";")
    [ts.VariableDeclarationList ("const " +:+ name +:+ " = " +:+ value)
       [ts.VariableDeclaration (name +:+ " = " +:+ value) (identifier name)
          None (Some (numeral value))];
     ts.Token SyntaxKind.SemicolonToken ";"].

Definition parameter (name type : string) : ts.Node :=
  ts.Parameter_ (name +:+ ": " +:+ type) (identifier name)
    (Some (ts.Token SyntaxKind.NumberKeyword type)).

(** [function test(a: number, b: number) { const x = 1; const y = 2;
     if (a > b) { return 1; } else { return 2; } }], white space apart. *)
Definition test : ts.Node :=
  ts.FunctionDeclaration "function test(a: number, b: number) { ... }"
    [parameter "a" "number"; parameter "b" "number"]
    (Some (ts.Block "{ ... }"
             [ts.Token SyntaxKind.OpenBraceToken "{";
              ts.SyntaxList "..." [constant "x" "1"; constant "y" "2"; flatIf];
              ts.Token SyntaxKind.CloseBraceToken "}"])).

(** [test(w,p);]: a call expression has a kind outside the list of
    [SyntaxKind] above (213 in TypeScript 5). *)
Definition call : ts.Node :=
  ts.ExpressionStatement "test(w,p);"
    (ts.Token (SyntaxKind.OtherKind 213) "test(w,p)").

Definition source : ts.Node :=
  ts.SourceFile "function test(a: number, b: number) { ... } ..."
    [test; constant "w" "1"; constant "p" "2"; call].

(** The same function with the annotation of [b] left out. *)
Definition untyped : ts.Node :=
  ts.FunctionDeclaration "function test(a: number, b) { ... }"
    [parameter "a" "number";
     ts.Parameter_ "b" (identifier "b") None]
    (Some (returnBlock "1")).

Definition untypedSource : ts.Node :=
  ts.SourceFile "function test(a: number, b) { ... }" [untyped].

(** [return 1;] and [a == b]. *)
Definition returnOne : ts.Node :=
  ts.Token SyntaxKind.ReturnStatement "return 1;".

Definition equal : ts.Node :=
  binary (identifier "a") SyntaxKind.EqualsEqualsToken "==" (identifier "b").

(** The symbol table with [a] and [b] in it, and with [a] alone. *)
Definition bothNumbers : World :=
  {| symbols := {[ "a"%string := "number"%string;
                   "b"%string := "number"%string ]};
     console := [] |}.

Definition firstNumber : World :=
  {| symbols := {[ "a"%string := "number"%string ]}; console := [] |}.

(** [{ x = 5; }] and [{ x = 6; }], the branches of
    [if (a > b) { x = 5; } else { x = 6; }]. *)
Definition assign (value : string) : ts.Node :=
  block (ts.ExpressionStatement ("x = " +:+ value +:+ ";")
           (binary (identifier "x") SyntaxKind.EqualsToken "="
              (numeral value))).

Definition assigned (value : string) : Context :=
  Assignment "x" (Some (numeral value)) [].

Definition braces (n : nat) : World :=
  {| symbols := ∅;
     console :=
       concat (replicate n
         [ConsoleWarn [Str "found an unspecified node: "; Str "{"; Str ", ";
                       KindName SyntaxKind.OpenBraceToken];
          ConsoleWarn [Str "found an unspecified node: "; Str "}"; Str ", ";
                       KindName SyntaxKind.CloseBraceToken]]) |}.

End TestProgram.

(** ** Proof steps *)

(** Runs an evaluator method on given arguments: unfolds the monad and the
    console primitives and puts the console output in one list. *)
Ltac run_method :=
  cbn;
  unfold JS.bind, JS.lift, ConditionEvaluator.console_log,
    ConditionEvaluator.warn, ConditionEvaluator.console_warn, JS.modify;
  cbn; rewrite <- ?app_assoc; try reflexivity.

(** * Properties *)

(** ** The condition evaluator *)

Section EvaluatorFacts.
Context {Z3Expr CustomContext : Type}.
Implicit Types (ev : @ConditionEvaluator.t Z3Expr) (context : CustomContext).
Implicit Types (node lhs rhs op : ts.Node) (out : list ConsoleEntry).

Import ConditionEvaluator.

Lemma get_own (o : gmap string (@Value Z3Expr)) k v :
  o !! k = Some v -> get o k = v.
Proof. intros H. unfold get. now rewrite H. Qed.

Lemma get_missing (o : gmap string (@Value Z3Expr)) k :
  o !! k = None -> k ∉ objectPrototypeKeys -> get o k = Undefined.
Proof.
  intros H Hk. unfold get. rewrite H.
  now rewrite bool_decide_eq_false_2.
Qed.

(** A property read never yields an error, whatever the key. *)
Lemma visitIdentifier_bound ev context node out :
  visitIdentifier (Some ev) context (Some node) out =
    (Normal (get (pathParams ev) (ts.getText node)),
     out ++ [ConsoleLog [Str "Got identifier: "; Str (ts.getText node)]]).
Proof. reflexivity. Qed.

(** Called as a bare function, [visitIdentifier] has no [this] to read
    [pathParams] from. *)
Lemma visitIdentifier_unbound context node out :
  visitIdentifier (Z3Expr := Z3Expr) None context (Some node) out =
    (Throw TypeError,
     out ++ [ConsoleLog [Str "Got identifier: "; Str (ts.getText node)]]).
Proof. reflexivity. Qed.

(** C2, as amended: for a condition that is a single identifier [v],
    [visitIdentifier] called on the evaluator returns what the property read
    [pathParams[v]] yields and raises nothing: the expression bound to [v]
    when there is one, and [undefined] when [v] is absent (and is not a name
    that every object inherits). *)
Theorem visitIdentifier_reads_pathParams ev context node out :
  visitIdentifier (Some ev) context (Some node) out =
    (Normal (get (pathParams ev) (ts.getText node)),
     out ++ [ConsoleLog [Str "Got identifier: "; Str (ts.getText node)]])
  /\ (forall v, pathParams ev !! ts.getText node = Some v ->
        get (pathParams ev) (ts.getText node) = v)
  /\ (pathParams ev !! ts.getText node = None ->
      ts.getText node ∉ objectPrototypeKeys ->
        get (pathParams ev) (ts.getText node) = Undefined).
Proof.
  split; [apply visitIdentifier_bound|].
  split; [intros v; apply get_own | apply get_missing].
Qed.

(** X1: the dispatch of [visitCondition] takes the method out of the jump
    table and calls it bare.  An identifier condition is logged and ends in
    a TypeError before anything is looked up, whatever [pathParams] holds;
    a binary expression is logged and ends in a TypeError when
    [visitBinaryExpression] reads its own jump table. *)
Theorem visitCondition_dispatch_loses_this ev context name text lhs op rhs out :
  visitCondition (Some ev) context
      (Some (ts.Token SyntaxKind.Identifier name)) out =
    (Throw TypeError,
     out ++ [ConsoleLog [Str "Got identifier: "; Str name]])
  /\ visitCondition (Some ev) context
       (Some (ts.BinaryExpression text lhs op rhs)) out =
     (Throw TypeError,
      out ++ [ConsoleLog [Str "Found a binary expression: "; Str text]]).
Proof. split; reflexivity. Qed.

(** C3: [>=] is not a key of the jump table.  The table holds
    [visitEqualsGreaterThanToken] under [EqualsGreaterThanToken], the arrow
    [=>]; a comparison [a >= b] takes the branch of the unspecified
    operators: a warning, and [undefined] for a result. *)
Theorem visitBinaryExpression_greater_equals_unspecified
    ev context text lhs optext rhs out :
  jumpTable SyntaxKind.GreaterThanEqualsToken = None
  /\ jumpTable SyntaxKind.EqualsGreaterThanToken
       = Some VisitEqualsGreaterThanToken
  /\ visitBinaryExpression (Some ev) context
       (ts.BinaryExpression text lhs
          (ts.Token SyntaxKind.GreaterThanEqualsToken optext) rhs) out =
     (Normal Undefined,
      out ++ [ConsoleLog [Str "Found a binary expression: "; Str text];
              ConsoleWarn [Str "found an unspecified operator: "; Str optext;
                           Str ", "; KindName SyntaxKind.BinaryExpression]]).
Proof.
  split; [reflexivity|]. split; [reflexivity|]. run_method.
Qed.

(** C4, as amended: each comparison handler, called on an evaluator that
    has its z3 context, hands both operands to [visitIdentifier] whatever
    their kind, so each operand is translated to the property read of its
    text in [pathParams]: an integer literal [n] is looked up under the key
    [n], and the comparison is built by z3 from the two values read. *)
Theorem comparison_handlers_read_both_operands
    (z3 : @Z3Context Z3Expr) (env : gmap string (@Value Z3Expr))
    context lhs op rhs out :
  let this := Some {| z3Context := Some z3; pathParams := env |} in
  let l := get env (ts.getText lhs) in
  let r := get env (ts.getText rhs) in
  let logged label :=
    out ++ [ConsoleLog [Str label; Str (ts.getText op)];
            ConsoleLog [Str "Got identifier: "; Str (ts.getText lhs)];
            ConsoleLog [Str "Got identifier: "; Str (ts.getText rhs)]] in
  visitGreaterThanToken this context (Some lhs) (Some op) (Some rhs) out =
    (GT z3 l r, logged "Got greater than token "%string)
  /\ visitEqualsGreaterThanToken this context (Some lhs) (Some op) (Some rhs)
       out =
     (GE z3 l r, logged "Got greater than equals token "%string)
  /\ visitLessThanToken this context (Some lhs) (Some op) (Some rhs) out =
     (LT z3 l r, logged "Got less than token "%string)
  /\ visitLessThanEqualsToken this context (Some lhs) (Some op) (Some rhs)
       out =
     (LE z3 l r, logged "Got less than equals token "%string)
  /\ visitEqualsEqualsToken this context (Some lhs) (Some op) (Some rhs) out =
     (Eq z3 l r, logged "Got equals equals token "%string).
Proof.
  cbv zeta. repeat split; run_method.
Qed.

(** X2: a comparison handler reached through [visitBinaryExpression] runs
    bare: for [>] it logs the operator and fails on [this.z3Context], so no
    comparison is built through the dispatch. *)
Theorem visitBinaryExpression_comparison_loses_this
    ev context text lhs optext rhs out :
  visitBinaryExpression (Some ev) context
      (ts.BinaryExpression text lhs
         (ts.Token SyntaxKind.GreaterThanToken optext) rhs) out =
    (Throw TypeError,
     out ++ [ConsoleLog [Str "Found a binary expression: "; Str text];
             ConsoleLog [Str "Got greater than token "; Str optext]]).
Proof. run_method. Qed.

(** C5, as amended: for [a && b], [visitBinaryExpression] called on the
    evaluator dispatches to [visitAmpersandAmpersandToken], which logs the
    text of the left operand and returns [undefined]: no expression is
    built and neither operand is translated. *)
Theorem visitBinaryExpression_and_returns_undefined
    ev context text lhs optext rhs out :
  visitBinaryExpression (Some ev) context
      (ts.BinaryExpression text lhs
         (ts.Token SyntaxKind.AmpersandAmpersandToken optext) rhs) out =
    (Normal Undefined,
     out ++ [ConsoleLog [Str "Found a binary expression: "; Str text];
             ConsoleLog [Str "Got ampersand ampersand token ";
                         Str (ts.getText lhs)]]).
Proof. run_method. Qed.

(** C6, as amended: for a binary expression whose operator token has a kind
    that is not a key of the jump table, [visitBinaryExpression] called on
    the evaluator emits one warning naming the operator, raises nothing, and
    returns [undefined]; it builds no expression. *)
Theorem visitBinaryExpression_unspecified_operator
    ev context text lhs op rhs out :
  jumpTable (ts.kind op) = None ->
  visitBinaryExpression (Some ev) context
      (ts.BinaryExpression text lhs op rhs) out =
    (Normal Undefined,
     out ++ [ConsoleLog [Str "Found a binary expression: "; Str text];
             ConsoleWarn [Str "found an unspecified operator: ";
                          Str (ts.getText op); Str ", ";
                          KindName SyntaxKind.BinaryExpression]]).
Proof.
  intros Hk. cbn. unfold JS.bind, console_log, JS.modify; cbn.
  rewrite Hk. run_method.
Qed.

(** [visitCondition] on a node whose kind is no key: a warning and
    [undefined]. *)
Lemma visitCondition_unspecified ev context node out :
  jumpTable (ts.kind node) = None ->
  visitCondition (Some ev) context (Some node) out =
    (Normal Undefined,
     out ++ [ConsoleWarn [Str "found an unspecified condition: ";
                          Str (ts.getText node); Str ", ";
                          KindName (ts.kind node)]]).
Proof.
  intros Hk. unfold visitCondition, JS.bind; cbn. now rewrite Hk.
Qed.

End EvaluatorFacts.

(** *** The evaluator on the sample conditions *)

(** C2, witness: [a] is bound, and its expression is what comes back. *)
Lemma visitIdentifier_reads_pathParams_witness :
  ConditionEvaluator.visitIdentifier (Some Samples.evaluator) tt
      (Some (Samples.identifier "a")) [] =
    (Normal (Samples.intConst "a"),
     [ConsoleLog [Str "Got identifier: "; Str "a"]]).
Proof.
  destruct (visitIdentifier_reads_pathParams Samples.evaluator tt
              (Samples.identifier "a") []) as [Hrun [Hown _]].
  rewrite Hrun, (Hown (Samples.intConst "a")); reflexivity.
Defined.

(** C2, counterexample: [z] is absent from [pathParams]; the evaluation
    completes normally with [undefined] and no error of any kind. *)
Lemma absent_identifier_yields_undefined :
  ConditionEvaluator.pathParams Samples.evaluator !! "z"%string = None
  /\ ConditionEvaluator.visitIdentifier (Some Samples.evaluator) tt
       (Some (Samples.identifier "z")) [] =
     (Normal ConditionEvaluator.Undefined,
      [ConsoleLog [Str "Got identifier: "; Str "z"]])
  /\ (forall e,
        fst (ConditionEvaluator.visitIdentifier (Some Samples.evaluator) tt
               (Some (Samples.identifier "z")) []) <> Throw e).
Proof.
  split; [reflexivity|]. split; [reflexivity|]. intros e. discriminate.
Qed.

(** C3, at the failing input [a >= b] with both parameters bound. *)
Lemma greater_equals_sample :
  ConditionEvaluator.visitBinaryExpression (Some Samples.evaluator) tt
      (Samples.binary (Samples.identifier "a")
         SyntaxKind.GreaterThanEqualsToken ">=" (Samples.identifier "b")) [] =
    (Normal ConditionEvaluator.Undefined,
     [ConsoleLog [Str "Found a binary expression: "; Str "a >= b"];
      ConsoleWarn [Str "found an unspecified operator: "; Str ">=";
                   Str ", "; KindName SyntaxKind.BinaryExpression]]).
Proof. reflexivity. Qed.

(** C4, counterexample: in [a > 0] the literal is read as the property [0]
    of [pathParams], which is [undefined]; the integer value 0 appears
    nowhere in the result. *)
Lemma literal_operand_is_looked_up :
  ConditionEvaluator.visitGreaterThanToken (Some Samples.evaluator) tt
      (Some (Samples.identifier "a"))
      (Some (ts.Token SyntaxKind.GreaterThanToken ">"))
      (Some (Samples.numeral "0")) [] =
    (Normal (ConditionEvaluator.Expr
               (Samples.Compare Samples.RelGT (Samples.intConst "a")
                  ConditionEvaluator.Undefined)),
     [ConsoleLog [Str "Got greater than token "; Str ">"];
      ConsoleLog [Str "Got identifier: "; Str "a"];
      ConsoleLog [Str "Got identifier: "; Str "0"]])
  /\ ConditionEvaluator.Undefined
       <> ConditionEvaluator.Expr (Samples.IntVal 0).
Proof. split; [reflexivity | discriminate]. Qed.

(** C5, counterexample: [a && b] with both parameters bound yields
    [undefined], not a conjunction; the operands are not even read. *)
Lemma and_sample_yields_undefined :
  ConditionEvaluator.visitBinaryExpression (Some Samples.evaluator) tt
      (Samples.binary (Samples.identifier "a")
         SyntaxKind.AmpersandAmpersandToken "&&" (Samples.identifier "b")) [] =
    (Normal ConditionEvaluator.Undefined,
     [ConsoleLog [Str "Found a binary expression: "; Str "a && b"];
      ConsoleLog [Str "Got ampersand ampersand token "; Str "a"]])
  /\ (forall e : Samples.Term,
        ConditionEvaluator.Undefined <> ConditionEvaluator.Expr e).
Proof. split; [reflexivity | discriminate]. Qed.

(** C6, witness: the bitwise [a | b]. *)
Lemma visitBinaryExpression_unspecified_operator_witness :
  ConditionEvaluator.jumpTable SyntaxKind.BarToken = None
  /\ ConditionEvaluator.visitBinaryExpression (Some Samples.evaluator) tt
       (Samples.binary (Samples.identifier "a") SyntaxKind.BarToken "|"
          (Samples.identifier "b")) [] =
     (Normal ConditionEvaluator.Undefined,
      [ConsoleLog [Str "Found a binary expression: "; Str "a | b"];
       ConsoleWarn [Str "found an unspecified operator: "; Str "|";
                    Str ", "; KindName SyntaxKind.BinaryExpression]]).
Proof.
  split; [reflexivity|].
  apply (visitBinaryExpression_unspecified_operator Samples.evaluator tt
           "a | b" (Samples.identifier "a")
           (ts.Token SyntaxKind.BarToken "|") (Samples.identifier "b") []).
  reflexivity.
Defined.

(** C6, counterexample: for [a | b] the evaluator yields [undefined]; no
    expression, sentinel or other, comes back. *)
Lemma bitwise_or_sample_yields_no_expression :
  ConditionEvaluator.visitBinaryExpression (Some Samples.evaluator) tt
      (Samples.binary (Samples.identifier "a") SyntaxKind.BarToken "|"
         (Samples.identifier "b")) [] =
    (Normal ConditionEvaluator.Undefined,
     [ConsoleLog [Str "Found a binary expression: "; Str "a | b"];
      ConsoleWarn [Str "found an unspecified operator: "; Str "|";
                   Str ", "; KindName SyntaxKind.BinaryExpression]])
  /\ (forall e : Samples.Term,
        fst (ConditionEvaluator.visitBinaryExpression (Some Samples.evaluator)
               tt
               (Samples.binary (Samples.identifier "a") SyntaxKind.BarToken "|"
                  (Samples.identifier "b")) [])
        <> Normal (ConditionEvaluator.Expr e)).
Proof. split; [reflexivity | discriminate]. Qed.

(** ** The context tree builder *)

Section BuilderFacts.
Context (getLineNumbers : option ts.Node -> ts.Node -> LineNumbers).
Context (this : ProgramAnalyzer.t).
Implicit Types (context : Context) (node name lhs rhs op : ts.Node).
Implicit Types (w : World).

Import ProgramAnalyzer.

Local Abbreviation visit := (visitNode getLineNumbers this).

(** With [LOGGING] off, [log] does nothing. *)
Lemma log_silent args w : log args w = (Normal tt, w).
Proof. reflexivity. Qed.

Lemma warn_appends args w :
  warn args w =
    (Normal tt, {| symbols := symbols w;
                   console := console w ++ [ConsoleWarn args] |}).
Proof. reflexivity. Qed.

(** A node whose kind has a visitor is handed to it. *)
Lemma visitNode_dispatch context node visitFn :
  jumpTable (ts.kind node) = Some visitFn ->
  visit context node = invoke getLineNumbers visit this visitFn context node.
Proof.
  intros H. destruct node; cbn in H |- *;
    solve [ now rewrite H | now inversion H ].
Qed.

(** C9: a node whose kind is not a key of the jump table is skipped with a
    warning: the visit completes normally, returns the context as it was,
    leaves the symbol table alone, and adds one [console.warn] entry. *)
Theorem visitNode_unknown_kind_warns_and_skips context node w :
  jumpTable (ts.kind node) = None ->
  visit context node w =
    (Normal context,
     {| symbols := symbols w;
        console := console w
          ++ [ConsoleWarn [Str "found an unspecified node: ";
                           Str (ts.getText node); Str ", ";
                           KindName (ts.kind node)]] |}).
Proof.
  intros H. destruct node; cbn in H; try discriminate; cbn; now rewrite ?H.
Qed.

(** [addChild] puts the child last in the list that is current and touches
    nothing else. *)
Lemma addChild_currentChildren context child :
  ContextView.currentChildren (Contexts.addChild context child)
    = ContextView.currentChildren context ++ [child].
Proof. destruct context as [|? ? [] ? ? ?|]; reflexivity. Qed.

Lemma addChild_extends context child :
  ContextView.extends context (Contexts.addChild context child).
Proof.
  destruct context as [ch|c l [] f tc ec|x e ch]; cbn.
  - now exists [child].
  - exists [child], []. now rewrite app_nil_r.
  - exists [], [child]. now rewrite app_nil_r.
  - now exists [child].
Qed.

(** C7: for a binary expression whose operator reads [=], the visitor
    returns the context with one Assignment child added, named by the text of
    the left-hand side and holding the right-hand side, and it does so
    whatever [visitNode] is: nothing is visited, the symbol table and the
    console are as before.  For any other operator the visitor adds nothing
    itself: its effect is that of visiting the left operand, the operator
    token and the right operand in turn.  [visitNode] sends every binary
    expression to this visitor. *)
Theorem visitBinaryExpression_assigns_or_recurses
    (visitNode' : Context -> ts.Node -> M Context) context text lhs op rhs w :
  (ts.getText op = "="%string ->
     visitBinaryExpression visitNode' context
         (ts.BinaryExpression text lhs op rhs) w =
       (Normal (Contexts.addChild context
                  (Assignment (ts.getText lhs) (Some rhs) [])), w)
     /\ ContextView.currentChildren
          (Contexts.addChild context
             (Assignment (ts.getText lhs) (Some rhs) []))
        = ContextView.currentChildren context
            ++ [Assignment (ts.getText lhs) (Some rhs) []])
  /\ (ts.getText op <> "="%string ->
        visitBinaryExpression visitNode' context
            (ts.BinaryExpression text lhs op rhs) w =
          (context <- visitNode' context lhs ;;
           context <- visitNode' context op ;;
           visitNode' context rhs)%js w)
  /\ visit context (ts.BinaryExpression text lhs op rhs) w =
       visitBinaryExpression visit context
         (ts.BinaryExpression text lhs op rhs) w.
Proof.
  split; [|split].
  - intros Heq. split; [|apply addChild_currentChildren].
    unfold visitBinaryExpression, JS.bind. rewrite log_silent.
    now rewrite bool_decide_eq_true_2.
  - intros Hne.
    unfold visitBinaryExpression at 1. unfold JS.bind at 1.
    rewrite log_silent. now rewrite bool_decide_eq_false_2.
  - reflexivity.
Qed.

(** The symbol table after a declaration of [name] with the optional
    annotation [type]. *)
Lemma addVar_registers context (x ty : string) w :
  Contexts.addVar context x ty w =
    (Normal tt, {| symbols := <[x := ty]> (symbols w);
                   console := console w |}).
Proof. reflexivity. Qed.

(** C10: a variable declaration, with or without initializer, adds the
    Assignment child [name := initializer] to the context ([None] when there
    is no initializer), and the symbol table gets the pair (name, type) only
    if the declaration has a type annotation; then the name and, if present,
    the initializer are visited under the same context.  For a declaration
    whose name is an identifier and that has no initializer this is the whole
    effect. *)
Theorem visitVariableDeclaration_adds_assignment
    context text name type initializer w :
  let registered :=
    {| symbols := match type with
                  | Some type =>
                      <[ts.getText name := ts.getText type]> (symbols w)
                  | None => symbols w
                  end;
       console := console w |} in
  let context' :=
    Contexts.addChild context (Assignment (ts.getText name) initializer []) in
  visit context (ts.VariableDeclaration text name type initializer) w =
    (context <- visit context' name ;;
     match initializer with
     | Some initializer => visit context initializer
     | None => JS.ret context
     end)%js registered
  /\ ContextView.currentChildren context'
     = ContextView.currentChildren context
         ++ [Assignment (ts.getText name) initializer []]
  /\ (ts.kind name = SyntaxKind.Identifier -> initializer = None ->
        visit context (ts.VariableDeclaration text name type initializer) w
          = (Normal context', registered)).
Proof.
  intros registered context'.
  assert (Hgen : visit context
                   (ts.VariableDeclaration text name type initializer) w =
    (context <- visit context' name ;;
     match initializer with
     | Some initializer => visit context initializer
     | None => JS.ret context
     end)%js registered).
  { subst registered context'. destruct w as [syms out].
    destruct type as [ty|]; reflexivity. }
  split; [exact Hgen|]. split; [apply addChild_currentChildren|].
  intros Hk ->. rewrite Hgen. unfold JS.bind.
  rewrite (visitNode_dispatch context' name VisitIdentifier)
    by now rewrite Hk.
  reflexivity.
Qed.

End BuilderFacts.

(** ** What a visit can do to the context it is handed *)

(** Induction on a node with the property known for the nodes one field
    away. *)
Lemma subnodes_ind (P : ts.Node -> Prop) :
  (forall node, Forall P (NodeInduction.subnodes node) -> P node) ->
  forall node, P node.
Proof.
  intros step. fix IH 1. intros node. apply step.
  destruct node; cbn [NodeInduction.subnodes].
  - constructor.
  - revert statements. fix IHl 1. intros [|n r]; constructor;
      [apply IH | apply IHl].
  - revert children. fix IHl 1. intros [|n r]; constructor;
      [apply IH | apply IHl].
  - revert children. fix IHl 1. intros [|n r]; constructor;
      [apply IH | apply IHl].
  - revert children. fix IHl 1. intros [|n r]; constructor;
      [apply IH | apply IHl].
  - repeat constructor. apply IH.
  - revert members. fix IHl 1. intros [|n r]; constructor;
      [apply IH | apply IHl].
  - destruct initializer as [n|]; cbn; repeat constructor. apply IH.
  - constructor; [apply IH|]. constructor; [apply IH|].
    destruct elseStatement as [n|]; cbn; repeat constructor. apply IH.
  - repeat constructor; apply IH.
  - constructor; [apply IH|].
    destruct type as [n|]; cbn; repeat constructor. apply IH.
  - revert declarations. fix IHl 1. intros [|n r]; constructor;
      [apply IH | apply IHl].
  - constructor; [apply IH|]. apply Forall_app. split.
    + destruct type as [n|]; cbn; repeat constructor. apply IH.
    + destruct initializer as [n|]; cbn; repeat constructor. apply IH.
  - apply Forall_app. split; [|repeat constructor; apply IH].
    revert parameters. fix IHl 1. intros [|n r]; constructor;
      [apply IH | apply IHl].
  - apply Forall_app. split.
    + revert parameters. fix IHl 1. intros [|n r]; constructor;
        [apply IH | apply IHl].
    + destruct body as [n|]; cbn; repeat constructor. apply IH.
  - repeat constructor; apply IH.
  - repeat constructor. apply IH.
Qed.

Section Extension.
Context (getLineNumbers : option ts.Node -> ts.Node -> LineNumbers).
Context (this : ProgramAnalyzer.t).
Implicit Types (c context : Context) (node : ts.Node) (w : World).

Import ProgramAnalyzer ContextView.

Local Abbreviation visit := (visitNode getLineNumbers this).

Lemma extends_refl c : extends c c.
Proof.
  destruct c as [ch|cond l v f tc ec|x e ch]; cbn.
  - exists []. now rewrite app_nil_r.
  - exists [], []. now rewrite !app_nil_r.
  - exists []. now rewrite app_nil_r.
Qed.

Lemma extends_trans c1 c2 c3 : extends c1 c2 -> extends c2 c3 -> extends c1 c3.
Proof.
  destruct c1 as [ch|cond l v f tc ec|x e ch]; cbn.
  - intros [m1 ->] [m2 ->]. exists (m1 ++ m2). now rewrite app_assoc.
  - intros (m1 & n1 & ->) (m2 & n2 & ->).
    exists (m1 ++ m2), (n1 ++ n2). now rewrite !app_assoc.
  - intros [m1 ->] [m2 ->]. exists (m1 ++ m2). now rewrite app_assoc.
Qed.

(** What a normal completion of [m ;; k] went through. *)
Lemma bind_normal {A B} (m : M A) (k : A -> M B) w b w' :
  JS.bind m k w = (Normal b, w') ->
  exists a w1, m w = (Normal a, w1) /\ k a w1 = (Normal b, w').
Proof.
  unfold JS.bind. destruct (m w) as [[a|e] w1]; [eauto | discriminate].
Qed.

Lemma grows_ret : grows JS.ret.
Proof. intros c w c' w' [= <- _]. apply extends_refl. Qed.

Lemma grows_seq (f g : Context -> M Context) :
  grows f -> grows g -> grows (fun c => JS.bind (f c) g).
Proof.
  intros Hf Hg c w c' w' H.
  apply bind_normal in H as (c1 & w1 & H1 & H2).
  eapply extends_trans; eauto.
Qed.

Lemma grows_log args (f : Context -> M Context) :
  grows f -> grows (fun c => JS.bind (log args) (fun _ => f c)).
Proof. intros Hf c w c' w' H. exact (Hf _ _ _ _ H). Qed.

Lemma grows_forEach (f : Context -> ts.Node -> M Context) nodes :
  Forall (fun n => grows (fun c => f c n)) nodes ->
  grows (forEach f nodes).
Proof.
  induction 1 as [|n rest Hn _ IH]; [apply grows_ret|].
  exact (grows_seq (fun c => f c n) (forEach f rest) Hn IH).
Qed.

Lemma grows_optional (f : Context -> ts.Node -> M Context) o :
  Forall (fun n => grows (fun c => f c n)) (NodeInduction.optional o) ->
  grows (fun c => match o with Some n => f c n | None => JS.ret c end).
Proof.
  destruct o as [n|]; cbn; [|intros _; apply grows_ret].
  now intros [Hn _]%Forall_cons.
Qed.

(** Every visitor only ever adds children to the context it is handed: the
    kind of the context, its predicate, its line range and its polarity
    flags come back as they went in. *)
Lemma visitNode_grows node : grows (fun c => visit c node).
Proof.
  induction node as [node IH] using subnodes_ind.
  destruct node; cbn [NodeInduction.subnodes] in IH.
  - (* a token: its visitor, if any, reads no field *)
    intros c w c' w'. cbn.
    destruct (jumpTable kind) as [[]|]; cbn;
      intros [= <- _] || intros [=]; apply extends_refl.
  - exact (grows_forEach _ _ IH).
  - exact (grows_log _ _ (grows_forEach _ _ IH)).
  - exact (grows_log _ _ (grows_forEach _ _ IH)).
  - exact (grows_log _ _ (grows_forEach _ _ IH)).
  - apply Forall_cons in IH as [He _]. exact (grows_log _ _ He).
  - exact (grows_log _ _ (grows_forEach _ _ IH)).
  - destruct initializer as [n|]; cbn in IH.
    + apply Forall_cons in IH as [Hn _]. exact (grows_log _ _ Hn).
    + exact (grows_log _ _ grows_ret).
  - (* if: the parent gets one child, whatever went on below it *)
    intros c w c' w' H. cbn in H.
    apply bind_normal in H as (c1 & w1 & _ & H).
    apply bind_normal in H as (c2 & w2 & _ & H).
    apply bind_normal in H as (c3 & w3 & _ & H).
    injection H as <- _. apply addChild_extends.
  - apply Forall_cons in IH as [Hl IH].
    apply Forall_cons in IH as [Ho IH].
    apply Forall_cons in IH as [Hr _].
    intros c w c' w' H. cbn in H. case_bool_decide.
    + injection H as <- _. apply addChild_extends.
    + revert H. apply (grows_seq _ _ Hl). apply (grows_seq _ _ Ho). exact Hr.
  - intros c w c' w' H. cbn in H.
    destruct type as [ty|]; cbn in H; [|discriminate].
    injection H as <- _. apply extends_refl.
  - exact (grows_log _ _ (grows_forEach _ _ IH)).
  - (* a declaration: one child, then the visits of name and initializer *)
    apply Forall_cons in IH as [Hn IH].
    apply Forall_app in IH as [_ Hi].
    intros c w c' w' H. cbn in H.
    apply bind_normal in H as ([] & w1 & _ & H).
    eapply extends_trans; [apply addChild_extends|].
    exact (grows_seq _ _ Hn (grows_optional visit initializer Hi) _ _ _ _ H).
  - apply Forall_app in IH as [Hp Hb].
    apply Forall_cons in Hb as [Hb _].
    apply grows_log. apply grows_seq; [exact (grows_forEach _ _ Hp) | exact Hb].
  - apply Forall_app in IH as [Hp Hb].
    apply grows_log. apply grows_log.
    apply grows_seq; [exact (grows_forEach _ _ Hp)|].
    exact (grows_optional _ _ Hb).
  - apply Forall_cons in IH as [He IH].
    apply Forall_cons in IH as [Hn _].
    apply grows_log. exact (grows_seq _ _ He Hn).
  - intros c w c' w' [= <- _]. apply extends_refl.
Qed.

(** X3: every visit that completes hands back the context it was given
    with children added and nothing else changed. *)
Theorem visitNode_only_adds_children context node w context' w' :
  visit context node w = (Normal context', w') ->
  extends context context'.
Proof. apply visitNode_grows. Qed.

End Extension.

(** ** The context tree builder: the context it is handed *)

Section BuilderUniform.
Context (getLineNumbers : option ts.Node -> ts.Node -> LineNumbers).
Context (this : ProgramAnalyzer.t).
Implicit Types (c context : Context) (node : ts.Node) (w : World).
Implicit Types (more : list Context) (nodes : list ts.Node).

Import ProgramAnalyzer Walk ContextView.

Local Abbreviation visit := (visitNode getLineNumbers this).

Lemma addChildren_app c more1 more2 :
  addChildren c (more1 ++ more2) = addChildren (addChildren c more1) more2.
Proof. apply fold_left_app. Qed.

Lemma addChildren_root children more :
  addChildren (Root children) more = Root (children ++ more).
Proof.
  revert children. induction more as [|child more IH]; intros children; cbn.
  - now rewrite app_nil_r.
  - unfold addChildren in IH. now rewrite IH, <- app_assoc.
Qed.

Lemma addChildren_then cond l f thenChildren elseChildren more :
  addChildren (Conditional cond l true f thenChildren elseChildren) more
  = Conditional cond l true f (thenChildren ++ more) elseChildren.
Proof.
  revert thenChildren.
  induction more as [|child more IH]; intros thenChildren; cbn.
  - now rewrite app_nil_r.
  - unfold addChildren in IH. now rewrite IH, <- app_assoc.
Qed.

Lemma addChildren_else cond l f thenChildren elseChildren more :
  addChildren (Conditional cond l false f thenChildren elseChildren) more
  = Conditional cond l false f thenChildren (elseChildren ++ more).
Proof.
  revert elseChildren.
  induction more as [|child more IH]; intros elseChildren; cbn.
  - now rewrite app_nil_r.
  - unfold addChildren in IH. now rewrite IH, <- app_assoc.
Qed.

Lemma uniform_ext (f g : Context -> M Context) :
  (forall c w, f c w = g c w) -> uniform f -> uniform g.
Proof.
  intros E Hf w.
  destruct (Hf w) as [(more & w' & H)|(e & w' & H)]; [left | right].
  - exists more, w'. intros c. now rewrite <- E.
  - exists e, w'. intros c. now rewrite <- E.
Qed.

Lemma uniform_ret : uniform JS.ret.
Proof. intros w. left. now exists [], w. Qed.

Lemma uniform_seq (f g : Context -> M Context) :
  uniform f -> uniform g -> uniform (fun c => c1 <- f c ;; g c1)%js.
Proof.
  intros Hf Hg w. unfold JS.bind.
  destruct (Hf w) as [(more1 & w1 & H1)|(e & w1 & H1)].
  - destruct (Hg w1) as [(more2 & w2 & H2)|(e & w2 & H2)].
    + left. exists (more1 ++ more2), w2. intros c.
      now rewrite H1, H2, addChildren_app.
    + right. exists e, w2. intros c. now rewrite H1, H2.
  - right. exists e, w1. intros c. now rewrite H1.
Qed.

(** A visit under a context that was given a child first. *)
Lemma uniform_after_addChild (f : Context -> M Context) child :
  uniform f -> uniform (fun c => f (Contexts.addChild c child)).
Proof.
  intros Hf w.
  destruct (Hf w) as [(more & w' & H)|(e & w' & H)]; [left | right].
  - exists (child :: more), w'. intros c. now rewrite H.
  - exists e, w'. intros c. now rewrite H.
Qed.

Lemma uniform_forEach (f : Context -> ts.Node -> M Context) nodes :
  Forall (fun n => uniform (fun c => f c n)) nodes ->
  uniform (forEach f nodes).
Proof.
  induction 1 as [|n rest Hn _ IH]; [exact uniform_ret|].
  exact (uniform_seq _ _ Hn IH).
Qed.

Lemma uniform_optional (f : Context -> ts.Node -> M Context) o :
  Forall (fun n => uniform (fun c => f c n)) (NodeInduction.optional o) ->
  uniform (fun c => match o with Some n => f c n | None => JS.ret c end).
Proof.
  destruct o as [n|]; cbn; [|intros _; exact uniform_ret].
  now intros [Hn _]%Forall_cons.
Qed.

(** What the visit does when it is known what it does to the empty root. *)
Lemma uniform_normal (f : Context -> M Context) c w r w' :
  uniform f -> f (Root []) w = (Normal r, w') ->
  f c w = (Normal (addChildren c (currentChildren r)), w').
Proof.
  intros Hf H. destruct (Hf w) as [(more & w1 & H1)|(e & w1 & H1)].
  - rewrite H1 in H. rewrite addChildren_root in H. injection H as <- <-.
    apply H1.
  - rewrite H1 in H. discriminate.
Qed.

Lemma uniform_throw (f : Context -> M Context) c w e w' :
  uniform f -> f (Root []) w = (Throw e, w') -> f c w = (Throw e, w').
Proof.
  intros Hf H. destruct (Hf w) as [(more & w1 & H1)|(e1 & w1 & H1)].
  - rewrite H1 in H. discriminate.
  - rewrite H1 in H. injection H as <- <-. apply H1.
Qed.

(** What a visit that completed under some context does to the empty
    root. *)
Lemma uniform_from (f : Context -> M Context) c w c' w' :
  uniform f -> f c w = (Normal c', w') ->
  exists more,
    f (Root []) w = (Normal (Root more), w') /\ c' = addChildren c more.
Proof.
  intros Hf H. destruct (Hf w) as [(more & w1 & H1)|(e & w1 & H1)].
  - rewrite H1 in H. injection H as <- <-. exists more.
    split; [|reflexivity]. now rewrite H1, addChildren_root.
  - rewrite H1 in H. discriminate.
Qed.

(** The visit of an [if] statement, from what the visits of its parts
    do. *)
Lemma uniform_if text e th (el : option ts.Node) :
  uniform (fun c => visit c e) -> uniform (fun c => visit c th) ->
  Forall (fun n => uniform (fun c => visit c n)) (NodeInduction.optional el) ->
  uniform (fun c => visit c (ts.IfStatement text e th el)).
Proof.
  intros He Ht Hel w.
  pose (l := getLineNumbers (sourceFile this)
               (ts.IfStatement text e th el)).
  assert (E : forall c,
    visit c (ts.IfStatement text e th el) w =
      (c1 <- visit (Conditional (Some e) (Some l) true false [] []) e ;;
       c2 <- visit c1 th ;;
       c3 <- match el with
             | Some s => visit (Contexts.setVisitingFalse c2) s
             | None => JS.ret c2
             end ;;
       JS.ret (Contexts.addChild c c3))%js w) by reflexivity.
  unfold JS.bind in E.
  destruct (He w) as [(more1 & w1 & H1)|(e1 & w1 & H1)];
    rewrite H1 in E; [|right; now exists e1, w1].
  destruct (Ht w1) as [(more2 & w2 & H2)|(e2 & w2 & H2)];
    rewrite H2 in E; [|right; now exists e2, w2].
  rewrite !addChildren_then in E. cbn [app] in E.
  destruct el as [s|]; cbn in Hel.
  - apply Forall_cons in Hel as [Hs _].
    destruct (Hs w2) as [(more3 & w3 & H3)|(e3 & w3 & H3)];
      cbn [Contexts.setVisitingFalse] in E; rewrite H3 in E;
      [|right; now exists e3, w3].
    left. eexists [_], w3. intros c. rewrite E. reflexivity.
  - left. eexists [_], w2. intros c. rewrite E. reflexivity.
Qed.

(** Every visit of the builder is uniform in the context. *)
Lemma visitNode_uniform node : uniform (fun c => visit c node).
Proof.
  induction node as [node IH] using subnodes_ind.
  destruct node; cbn [NodeInduction.subnodes] in IH.
  - intros w. destruct kind;
      first [ left; exists [], w; intros c; reflexivity
            | right; exists TypeError, w; intros c; reflexivity
            | left; eexists [], _; intros c; reflexivity ].
  - exact (uniform_forEach _ _ IH).
  - exact (uniform_forEach _ _ IH).
  - exact (uniform_forEach _ _ IH).
  - exact (uniform_forEach _ _ IH).
  - apply Forall_cons in IH as [He _]. exact He.
  - exact (uniform_forEach _ _ IH).
  - exact (uniform_optional visit initializer IH).
  - apply Forall_cons in IH as [He IH].
    apply Forall_cons in IH as [Ht Hel].
    now apply uniform_if.
  - apply Forall_cons in IH as [Hl IH].
    apply Forall_cons in IH as [Ho IH].
    apply Forall_cons in IH as [Hr _].
    destruct (decide (ts.getText node2 = "="%string)) as [Heq|Hne].
    + intros w. left.
      exists [Contexts.newAssignment (ts.getText node1) (Some node3)], w.
      intros c.
      change (visit c (ts.BinaryExpression text node1 node2 node3) w)
        with (visitBinaryExpression visit c
                (ts.BinaryExpression text node1 node2 node3) w).
      unfold visitBinaryExpression, JS.bind. rewrite log_silent.
      now rewrite bool_decide_eq_true_2 by exact Heq.
    + refine (uniform_ext _ _ _
                (uniform_seq _ _ Hl (uniform_seq _ _ Ho Hr))).
      intros c w.
      change (visit c (ts.BinaryExpression text node1 node2 node3) w)
        with (visitBinaryExpression visit c
                (ts.BinaryExpression text node1 node2 node3) w).
      unfold visitBinaryExpression. symmetry. unfold JS.bind at 1.
      rewrite log_silent.
      now rewrite bool_decide_eq_false_2 by exact Hne.
  - intros w. destruct type as [ty|].
    + left. eexists [], _. intros c. reflexivity.
    + right. exists TypeError, w. intros c. reflexivity.
  - exact (uniform_forEach _ _ IH).
  - apply Forall_cons in IH as [Hn IH].
    apply Forall_app in IH as [_ Hi].
    pose proof (uniform_after_addChild _
                  (Contexts.newAssignment (ts.getText node) initializer)
                  (uniform_seq _ _ Hn (uniform_optional visit initializer Hi)))
      as H.
    intros w. destruct type as [ty|].
    + destruct (H {| symbols := <[ts.getText node := ts.getText ty]>
                                  (symbols w);
                     console := console w |})
        as [(more & w' & Hw)|(e & w' & Hw)]; [left | right].
      * exists more, w'. intros c. rewrite <- (Hw c). reflexivity.
      * exists e, w'. intros c. rewrite <- (Hw c). reflexivity.
    + destruct (H w) as [(more & w' & Hw)|(e & w' & Hw)]; [left | right].
      * exists more, w'. intros c. rewrite <- (Hw c). reflexivity.
      * exists e, w'. intros c. rewrite <- (Hw c). reflexivity.
  - apply Forall_app in IH as [Hp Hb].
    apply Forall_cons in Hb as [Hb _].
    exact (uniform_seq _ _ (uniform_forEach visit parameters Hp) Hb).
  - apply Forall_app in IH as [Hp Hb].
    exact (uniform_seq _ _ (uniform_forEach visit parameters Hp)
             (uniform_optional visit body Hb)).
  - apply Forall_cons in IH as [He IH].
    apply Forall_cons in IH as [Hn _].
    exact (uniform_seq _ _ He Hn).
  - intros w. left. eexists [], _. intros c. reflexivity.
Qed.

(** X17: the builder never looks at the context it is handed.  What a visit
    of a node does to any context is told by what it does to the empty root:
    it adds the same children, in the same order, and leaves the same symbol
    table and console; and it throws when the visit from the empty root
    throws. *)
Theorem visitNode_ignores_context node c w :
  visit c node w =
    match visit (Root []) node w with
    | (Normal root, w') =>
        (Normal (addChildren c (currentChildren root)), w')
    | (Throw e, w') => (Throw e, w')
    end.
Proof.
  destruct (visit (Root []) node w) as [[root|e] w'] eqn:H.
  - exact (uniform_normal _ c w root w' (visitNode_uniform node) H).
  - exact (uniform_throw _ c w e w' (visitNode_uniform node) H).
Qed.

(** X18: what an [if] statement adds to the tree.  When the condition and
    the then-statement are visited to the end, an [if] without [else] adds
    one conditional context: its condition is the condition of the
    statement, its line range the one [getLineNumbers] gives for the
    statement, its then-children are the children the condition adds
    followed by those the then-statement adds, and it has no else-children
    and no record of an else branch.  With an [else] branch that is visited
    to the end, the else-children are those the else-statement adds, and the
    else branch is on record. *)
Theorem visitIfStatement_adds_one_conditional
    c text e th w root1 w1 root2 w2 :
  visit (Root []) e w = (Normal root1, w1) ->
  visit (Root []) th w1 = (Normal root2, w2) ->
  visit c (ts.IfStatement text e th None) w =
    (Normal
       (Contexts.addChild c
          (Conditional (Some e)
             (Some (getLineNumbers (sourceFile this)
                      (ts.IfStatement text e th None)))
             true false
             (currentChildren root1 ++ currentChildren root2) [])),
     w2)
  /\ (forall el root3 w3,
        visit (Root []) el w2 = (Normal root3, w3) ->
        visit c (ts.IfStatement text e th (Some el)) w =
          (Normal
             (Contexts.addChild c
                (Conditional (Some e)
                   (Some (getLineNumbers (sourceFile this)
                            (ts.IfStatement text e th (Some el))))
                   false true
                   (currentChildren root1 ++ currentChildren root2)
                   (currentChildren root3))),
           w3)).
Proof.
  intros H1 H2.
  assert (E : forall (el : option ts.Node) c,
    visit c (ts.IfStatement text e th el) w =
      (c1 <- visit (Conditional (Some e)
                       (Some (getLineNumbers (sourceFile this)
                                (ts.IfStatement text e th el)))
                       true false [] []) e ;;
       c2 <- visit c1 th ;;
       c3 <- match el with
             | Some s => visit (Contexts.setVisitingFalse c2) s
             | None => JS.ret c2
             end ;;
       JS.ret (Contexts.addChild c c3))%js w) by reflexivity.
  unfold JS.bind in E.
  split; [|intros el root3 w3 H3]; rewrite E.
  - rewrite (uniform_normal _ _ w root1 w1 (visitNode_uniform e) H1).
    rewrite addChildren_then.
    rewrite (uniform_normal _ _ w1 root2 w2 (visitNode_uniform th) H2).
    now rewrite addChildren_then.
  - rewrite (uniform_normal _ _ w root1 w1 (visitNode_uniform e) H1).
    rewrite addChildren_then.
    rewrite (uniform_normal _ _ w1 root2 w2 (visitNode_uniform th) H2).
    rewrite addChildren_then. cbn [Contexts.setVisitingFalse].
    rewrite (uniform_normal _ _ w2 root3 w3 (visitNode_uniform el) H3).
    now rewrite addChildren_else.
Qed.

End BuilderUniform.

(** X18, witness: [if (a > b) { x = 5; } else { x = 6; }] under the root;
    each branch holds its assignment, and each block draws the two warnings
    about its braces. *)
Lemma visitIfStatement_adds_one_conditional_witness :
  ProgramAnalyzer.visitNode Samples.lineNumbers Samples.analyzer (Root [])
    Samples.greater Samples.emptyWorld
  = (Normal (Root []), Samples.emptyWorld)
  /\ ProgramAnalyzer.visitNode Samples.lineNumbers Samples.analyzer (Root [])
       (TestProgram.assign "5") Samples.emptyWorld
     = (Normal (Root [TestProgram.assigned "5"]), TestProgram.braces 1)
  /\ ProgramAnalyzer.visitNode Samples.lineNumbers Samples.analyzer (Root [])
       (TestProgram.assign "6") (TestProgram.braces 1)
     = (Normal (Root [TestProgram.assigned "6"]), TestProgram.braces 2)
  /\ ProgramAnalyzer.visitNode Samples.lineNumbers Samples.analyzer (Root [])
       (Samples.ifElse Samples.greater (TestProgram.assign "5")
          (TestProgram.assign "6"))
       Samples.emptyWorld
     = (Normal
          (Root [Conditional (Some Samples.greater)
                   (Some {| startLine := 1; endLine := 1 |}) false true
                   [TestProgram.assigned "5"] [TestProgram.assigned "6"]]),
        TestProgram.braces 2).
Proof.
  assert (H1 : ProgramAnalyzer.visitNode Samples.lineNumbers Samples.analyzer
                 (Root []) Samples.greater Samples.emptyWorld
               = (Normal (Root []), Samples.emptyWorld)) by reflexivity.
  assert (H2 : ProgramAnalyzer.visitNode Samples.lineNumbers Samples.analyzer
                 (Root []) (TestProgram.assign "5") Samples.emptyWorld
               = (Normal (Root [TestProgram.assigned "5"]),
                  TestProgram.braces 1)) by reflexivity.
  assert (H3 : ProgramAnalyzer.visitNode Samples.lineNumbers Samples.analyzer
                 (Root []) (TestProgram.assign "6") (TestProgram.braces 1)
               = (Normal (Root [TestProgram.assigned "6"]),
                  TestProgram.braces 2)) by reflexivity.
  split; [exact H1|]. split; [exact H2|]. split; [exact H3|].
  exact (proj2 (visitIfStatement_adds_one_conditional Samples.lineNumbers
                  Samples.analyzer (Root [])
                  (ts.getText (Samples.ifElse Samples.greater
                                 (TestProgram.assign "5")
                                 (TestProgram.assign "6")))
                  Samples.greater (TestProgram.assign "5")
                  Samples.emptyWorld (Root []) Samples.emptyWorld
                  (Root [TestProgram.assigned "5"]) (TestProgram.braces 1)
                  H1 H2)
          (TestProgram.assign "6") (Root [TestProgram.assigned "6"])
          (TestProgram.braces 2) H3).
Defined.

(** ** Statements that add no context *)

Section ContextFree.
Context (getLineNumbers : option ts.Node -> ts.Node -> LineNumbers).
Context (this : ProgramAnalyzer.t).
Implicit Types (c context : Context) (node : ts.Node) (w : World).
Implicit Types (nodes : list ts.Node).

Import ProgramAnalyzer Walk.

Local Abbreviation visit := (visitNode getLineNumbers this).

Lemma keeps_ext (f g : Context -> M Context) :
  (forall c w, f c w = g c w) -> keeps f -> keeps g.
Proof. intros E Hf c w c' w' H. apply (Hf c w c' w'). now rewrite E. Qed.

Lemma keeps_ret : keeps JS.ret.
Proof. intros c w c' w' H. now injection H as <- _. Qed.

Lemma keeps_seq (f g : Context -> M Context) :
  keeps f -> keeps g -> keeps (fun c => c1 <- f c ;; g c1)%js.
Proof.
  intros Hf Hg c w c' w' H.
  apply bind_normal in H as (c1 & w1 & H1 & H2).
  apply Hf in H1 as ->. now apply Hg in H2.
Qed.

Lemma keeps_forEach (f : Context -> ts.Node -> M Context) nodes :
  Forall (fun n => keeps (fun c => f c n)) nodes -> keeps (forEach f nodes).
Proof.
  induction 1 as [|n rest Hn _ IH]; [exact keeps_ret|].
  exact (keeps_seq _ _ Hn IH).
Qed.

Lemma keeps_optional (f : Context -> ts.Node -> M Context) o :
  Forall (fun n => keeps (fun c => f c n)) (NodeInduction.optional o) ->
  keeps (fun c => match o with Some n => f c n | None => JS.ret c end).
Proof.
  destruct o as [n|]; cbn; [|intros _; exact keeps_ret].
  now intros [Hn _]%Forall_cons.
Qed.

(** The nodes of a list that satisfy a test have what the test promises. *)
Lemma Forall_forallb (test : ts.Node -> bool) (P : ts.Node -> Prop) nodes :
  Forall (fun n => test n = true -> P n) nodes ->
  forallb test nodes = true -> Forall P nodes.
Proof.
  induction 1 as [|n rest Hn _ IH]; cbn; [constructor|].
  intros [Ht Hr]%andb_prop. constructor; auto.
Qed.

Lemma Forall_walkableOption (test : ts.Node -> bool) (P : ts.Node -> Prop)
    (o : option ts.Node) :
  Forall (fun n => test n = true -> P n) (NodeInduction.optional o) ->
  walkableOption test o = true -> Forall P (NodeInduction.optional o).
Proof.
  destruct o as [n|]; cbn; [|constructor].
  intros [Hn _]%Forall_cons Ht. constructor; auto.
Qed.

(** Where the builder meets no [if] statement, no declaration and no
    assignment, it adds no context. *)
Lemma contextFree_keeps node :
  contextFree node = true -> keeps (fun c => visit c node).
Proof.
  induction node as [node IH] using subnodes_ind.
  destruct node; cbn [NodeInduction.subnodes] in IH;
    cbn [contextFree]; intros Hcf.
  - intros c w c' w' H.
    destruct kind; cbn in H; cbv [JS.ret JS.throw] in H; congruence.
  - exact (keeps_forEach _ _ (Forall_forallb _ _ _ IH Hcf)).
  - exact (keeps_forEach _ _ (Forall_forallb _ _ _ IH Hcf)).
  - exact (keeps_forEach _ _ (Forall_forallb _ _ _ IH Hcf)).
  - exact (keeps_forEach _ _ (Forall_forallb _ _ _ IH Hcf)).
  - apply Forall_cons in IH as [He _]. exact (He Hcf).
  - exact (keeps_forEach _ _ (Forall_forallb _ _ _ IH Hcf)).
  - exact (keeps_optional visit initializer
             (Forall_walkableOption _ _ _ IH Hcf)).
  - discriminate.
  - apply Forall_cons in IH as [Hl IH].
    apply Forall_cons in IH as [Ho IH].
    apply Forall_cons in IH as [Hr _].
    apply andb_prop in Hcf as [Hne Hcf].
    apply andb_prop in Hcf as [Hcl Hcf].
    apply andb_prop in Hcf as [Hco Hcr].
    apply negb_true_iff, bool_decide_eq_false in Hne.
    refine (keeps_ext _ _ _
              (keeps_seq _ _ (Hl Hcl) (keeps_seq _ _ (Ho Hco) (Hr Hcr)))).
    intros c w.
    change (visit c (ts.BinaryExpression text node1 node2 node3) w)
      with (visitBinaryExpression visit c
              (ts.BinaryExpression text node1 node2 node3) w).
    unfold visitBinaryExpression. symmetry. unfold JS.bind at 1.
    rewrite log_silent.
    now rewrite bool_decide_eq_false_2 by exact Hne.
  - intros c w c' w' H.
    destruct type as [ty|]; cbn in H; cbv [JS.ret JS.throw] in H;
      congruence.
  - exact (keeps_forEach _ _ (Forall_forallb _ _ _ IH Hcf)).
  - discriminate.
  - apply Forall_app in IH as [Hp Hb].
    apply Forall_cons in Hb as [Hb _].
    apply andb_prop in Hcf as [Hcp Hcb].
    exact (keeps_seq _ _
             (keeps_forEach visit parameters (Forall_forallb _ _ _ Hp Hcp))
             (Hb Hcb)).
  - apply Forall_app in IH as [Hp Hb].
    apply andb_prop in Hcf as [Hcp Hcb].
    exact (keeps_seq _ _
             (keeps_forEach visit parameters (Forall_forallb _ _ _ Hp Hcp))
             (keeps_optional visit body
                (Forall_walkableOption _ _ _ Hb Hcb))).
  - apply Forall_cons in IH as [He IH].
    apply Forall_cons in IH as [Hn _].
    apply andb_prop in Hcf as [Hce Hcn].
    exact (keeps_seq _ _ (He Hce) (Hn Hcn)).
  - intros c w c' w' H. cbn in H. cbv [JS.ret JS.throw] in H. congruence.
Qed.

Lemma contextFree_added node w :
  contextFree node = true -> IfElse.added getLineNumbers this node w = [].
Proof.
  intros Hcf. unfold IfElse.added.
  destruct (visit (Root []) node w) as [[root|e] w'] eqn:H; [|reflexivity].
  now apply (contextFree_keeps node Hcf) in H as ->.
Qed.

End ContextFree.

(** ** The path enumerator *)

Section EnumeratorFacts.
Context (emptyElsePath : bool).
Implicit Types (c root : Context) (children : list Context).

Import ContextPathsEvaluator.

Local Abbreviation paths := (ContextPathsEvaluator.paths emptyElsePath).
Local Abbreviation leaves := (ContextPathsEvaluator.leaves emptyElsePath).

Lemma descend_cons c children :
  descend paths (c :: children) = paths c ++ flat_map paths children.
Proof. reflexivity. Qed.

Lemma descend_split l1 c l2 :
  descend paths (l1 ++ c :: l2)
    = flat_map paths l1 ++ paths c ++ flat_map paths l2.
Proof.
  destruct l1 as [|x l1]; [reflexivity|].
  cbn [app]. rewrite descend_cons. cbn [flat_map].
  now rewrite flat_map_app, <- app_assoc.
Qed.

(** Every context is on at least one path. *)
Lemma paths_nonempty : forall c, paths c <> [].
Proof.
  fix IH 1. intros c.
  assert (Hd : forall children, descend paths children <> []).
  { intros [|x r]; [discriminate|]. rewrite descend_cons.
    intros [H _]%app_eq_nil. exact (IH x H). }
  destruct c as [ch|cond l v f tc ec|x e ch]; cbn.
  - specialize (Hd ch). now destruct (descend paths ch).
  - specialize (Hd tc). now destruct (descend paths tc).
  - specialize (Hd ch). now destruct (descend paths ch).
Qed.

Lemma descend_nonempty children : descend paths children <> [].
Proof.
  destruct children as [|c r]; [discriminate|]. rewrite descend_cons.
  intros [H _]%app_eq_nil. exact (paths_nonempty c H).
Qed.

(** Induction on a context tree: a property holds of a context when it
    holds of its children. *)
Lemma context_forall_ind (P : Context -> Prop) :
  (forall children, Forall P children -> P (Root children)) ->
  (forall cond l v f thenChildren elseChildren,
     Forall P thenChildren -> Forall P elseChildren ->
     P (Conditional cond l v f thenChildren elseChildren)) ->
  (forall x e children, Forall P children -> P (Assignment x e children)) ->
  forall c, P c.
Proof.
  intros Hroot Hcond Hassign. fix IH 1. intros c.
  assert (Hall : forall children, Forall P children).
  { fix IHl 1. intros [|x r]; constructor; [apply IH | apply IHl]. }
  destruct c as [ch|cond l v f tc ec|x e ch].
  - apply Hroot, Hall.
  - apply Hcond; apply Hall.
  - apply Hassign, Hall.
Qed.

Lemma descend_count children :
  Forall (fun c => length (paths c) = leaves c) children ->
  length (descend paths children) = leavesBelow leaves children.
Proof.
  intros H. destruct children as [|x r]; [reflexivity|].
  unfold descend, leavesBelow.
  induction H as [|c rest Hc _ IH]; [reflexivity|].
  cbn [flat_map map list_sum]. now rewrite length_app, Hc, IH.
Qed.

(** The enumerator yields one path for each leaf of the tree. *)
Lemma paths_count c : length (paths c) = leaves c.
Proof.
  induction c as [children IH|cond l v f tc ec IHt IHe|x e children IH]
    using context_forall_ind; cbn [ContextPathsEvaluator.paths
                                    ContextPathsEvaluator.leaves].
  - now rewrite length_map, descend_count.
  - rewrite length_app, length_map, descend_count by exact IHt.
    destruct (f || emptyElsePath); [|reflexivity].
    now rewrite length_map, descend_count.
  - now rewrite length_map, descend_count.
Qed.

Lemma leavesBelow_count children :
  length (descend paths children) = leavesBelow leaves children.
Proof.
  apply descend_count, Forall_forall. intros c _. apply paths_count.
Qed.

Lemma leavesBelow_positive children : 1 <= leavesBelow leaves children.
Proof.
  rewrite <- leavesBelow_count.
  pose proof (descend_nonempty children) as H.
  destruct (descend paths children); [contradiction | cbn; lia].
Qed.

Lemma map_cons_nonempty (s : Step) (ps : list Path) :
  ps <> [] -> map (cons s) ps <> [].
Proof. now destruct ps. Qed.

Lemma polarity_map_cons cond l b (ps : list Path) :
  Forall (fun p => polarity p = Some b)
    (map (cons (AtConditional cond l b)) ps).
Proof. induction ps; constructor; auto. Qed.

(** Putting a step in front of paths that already hold a block of
    [steps]-prefixed paths. *)
Lemma map_cons_block (s : Step) steps (before block after : list Path) :
  map (cons s) (before ++ map (app steps) block ++ after)
    = map (cons s) before ++ map (app (s :: steps)) block
        ++ map (cons s) after.
Proof. now rewrite !map_app, map_map. Qed.

(** The paths below a list of children hold, as a block, the paths of each
    child that holds [c]. *)
Lemma descend_block c child children steps :
  child ∈ children ->
  (exists before after,
     paths child = before ++ map (app steps) (paths c) ++ after) ->
  exists before after,
    descend paths children = before ++ map (app steps) (paths c) ++ after.
Proof.
  intros (l1 & l2 & ->)%list_elem_of_split (b & a & Hchild).
  exists (flat_map paths l1 ++ b), (a ++ flat_map paths l2).
  rewrite descend_split, Hchild. now rewrite <- !app_assoc.
Qed.

(** Where a context occurs in a tree, its paths are a block of the tree's
    paths, each behind the steps that lead to the context. *)
Lemma paths_occurs c root steps :
  occurs emptyElsePath c root steps ->
  exists before after,
    paths root = before ++ map (app steps) (paths c) ++ after.
Proof.
  induction 1 as [|children child steps Hin _ IH
                  |cond l v f tc ec child steps Hin _ IH
                  |cond l v f tc ec child steps Hf Hin _ IH
                  |x e children child steps Hin _ IH].
  - exists [], []. cbn. now rewrite map_id, app_nil_r.
  - destruct (descend_block _ _ _ _ Hin IH) as (b & a & Hd).
    exists (map (cons AtRoot) b), (map (cons AtRoot) a).
    cbn [ContextPathsEvaluator.paths]. rewrite Hd. apply map_cons_block.
  - destruct (descend_block _ _ _ _ Hin IH) as (b & a & Hd).
    exists (map (cons (AtConditional cond l true)) b),
           (map (cons (AtConditional cond l true)) a
              ++ if f || emptyElsePath
                 then map (cons (AtConditional cond l false))
                          (descend paths ec)
                 else []).
    cbn [ContextPathsEvaluator.paths]. rewrite Hd, map_cons_block.
    now rewrite <- !app_assoc.
  - destruct (descend_block _ _ _ _ Hin IH) as (b & a & Hd).
    exists (map (cons (AtConditional cond l true)) (descend paths tc)
              ++ map (cons (AtConditional cond l false)) b),
           (map (cons (AtConditional cond l false)) a).
    cbn [ContextPathsEvaluator.paths]. rewrite Hf, Hd, map_cons_block.
    now rewrite <- app_assoc.
  - destruct (descend_block _ _ _ _ Hin IH) as (b & a & Hd).
    exists (map (cons (AtAssignment x e)) b), (map (cons (AtAssignment x e)) a).
    cbn [ContextPathsEvaluator.paths]. rewrite Hd. apply map_cons_block.
Qed.

(** A conditional whose else branch was visited: the true continuation,
    then the false one, under either reading of [emptyElsePath]. *)
Lemma paths_conditional_else cond l v thenChildren elseChildren :
  paths (Conditional cond l v true thenChildren elseChildren)
    = map (cons (AtConditional cond l true)) (descend paths thenChildren)
      ++ map (cons (AtConditional cond l false)) (descend paths elseChildren).
Proof. reflexivity. Qed.

Context (getLineNumbers : option ts.Node -> ts.Node -> LineNumbers).
Context (this : ProgramAnalyzer.t).

Local Abbreviation visit := (ProgramAnalyzer.visitNode getLineNumbers this).

Import IfElse.

Local Abbreviation added := (IfElse.added getLineNumbers this).
Local Abbreviation after := (IfElse.after getLineNumbers this).
Local Abbreviation conditional := (IfElse.conditional getLineNumbers this).
Local Abbreviation trues :=
  (IfElse.trues emptyElsePath getLineNumbers this).
Local Abbreviation falses :=
  (IfElse.falses emptyElsePath getLineNumbers this).

(** A visit that completes adds, to whatever context it was handed, the
    children it adds to the empty root, and leaves the same world. *)
Lemma visit_added node c w c' w' :
  visit c node w = (Normal c', w') ->
  c' = Walk.addChildren c (added node w) /\ after node w = w'.
Proof.
  intros H.
  destruct (uniform_from (fun c => visit c node) c w c' w'
              (visitNode_uniform getLineNumbers this node) H)
    as (more & H0 & ->).
  unfold IfElse.added, IfElse.after. now rewrite H0.
Qed.

(** An [if] with an [else] adds to the context one conditional that holds
    the predicate and the line range and records the visit of the else
    branch; what the condition and the then-statement add is under its true
    polarity, what the else-statement adds under its false polarity. *)
Lemma if_else_builds_conditional context text e th el w context' w' :
  visit context (ts.IfStatement text e th (Some el)) w
    = (Normal context', w') ->
  context' = Contexts.addChild context (conditional text e th el w).
Proof.
  intros H. cbn in H.
  apply bind_normal in H as (c1 & w1 & H1 & H).
  apply bind_normal in H as (c2 & w2 & H2 & H).
  apply bind_normal in H as (c3 & w3 & H3 & H).
  injection H as <- _.
  apply visit_added in H1 as [-> <-].
  apply visit_added in H2 as [-> <-].
  rewrite !addChildren_then in H3. cbn [Contexts.setVisitingFalse] in H3.
  apply visit_added in H3 as [-> _].
  now rewrite addChildren_else.
Qed.

(** C8, as amended: the conditional context that an [if] statement with an
    [else] branch adds to the tree is enumerated as its true-polarity paths
    followed by its false-polarity paths.  The true-polarity paths are as
    many as the leaves below the contexts that the condition and the
    then-statement add, the false-polarity paths as many as the leaves below
    the contexts that the else-statement adds, at least one of each.  There
    are exactly two paths, one per polarity, if and only if each side has a
    single leaf, as when the condition and the branches add no context, and
    more than two otherwise.  In the paths of any tree that holds the
    conditional, the paths through it stand together, every true-polarity
    path before every false-polarity one. *)
Theorem if_else_paths_true_before_false context text e th el w context' w' :
  visit context (ts.IfStatement text e th (Some el)) w
    = (Normal context', w') ->
  trueBeforeFalse emptyElsePath getLineNumbers this context text e th el w
    context'.
Proof.
  intros H%if_else_builds_conditional.
  pose proof (leavesBelow_positive
                (thenChildren getLineNumbers this e th w)) as Ht.
  pose proof (leavesBelow_positive
                (elseChildren getLineNumbers this e th el w)) as He.
  assert (Hp : paths (conditional text e th el w)
               = trues text e th el w ++ falses text e th el w)
    by apply paths_conditional_else.
  assert (Hnt : length (trues text e th el w)
                = leavesBelow leaves (thenChildren getLineNumbers this e th w))
    by (unfold IfElse.trues; now rewrite length_map, leavesBelow_count).
  assert (Hnf : length (falses text e th el w)
                = leavesBelow leaves
                    (elseChildren getLineNumbers this e th el w))
    by (unfold IfElse.falses; now rewrite length_map, leavesBelow_count).
  unfold trueBeforeFalse. cbn zeta.
  split; [exact H|]. split; [exact Hp|].
  split; [apply polarity_map_cons|]. split; [apply polarity_map_cons|].
  split; [exact Hnt|]. split; [exact Hnf|].
  split; [exact Ht|]. split; [exact He|].
  split; [rewrite Hp, length_app, Hnt, Hnf; lia|].
  split; [rewrite Hp, length_app, Hnt, Hnf; lia|].
  assert (Hnone : added e w = [] -> added th (after e w) = [] ->
                  added el (after th (after e w)) = [] ->
                  paths (conditional text e th el w) =
                    [[AtConditional (Some e)
                        (Some (lines getLineNumbers this text e th el)) true];
                     [AtConditional (Some e)
                        (Some (lines getLineNumbers this text e th el))
                        false]]).
  { intros Ha Hb Hc. rewrite Hp.
    unfold IfElse.trues, IfElse.falses, thenChildren, elseChildren.
    now rewrite Ha, Hb, Hc. }
  split; [exact Hnone|]. split.
  - intros Ha Hb Hc.
    apply Hnone; now apply contextFree_added.
  - intros root steps (b & a & Hroot)%paths_occurs.
    exists b, a. now rewrite Hroot, Hp, map_app, <- app_assoc.
Qed.

End EnumeratorFacts.

(** *** The builder and the enumerator on the sample programs *)

(** C9, witness: the token [==] has no visitor. *)
Lemma visitNode_unknown_kind_warns_and_skips_witness :
  ProgramAnalyzer.jumpTable SyntaxKind.EqualsEqualsToken = None
  /\ ProgramAnalyzer.visitNode Samples.lineNumbers Samples.analyzer (Root [])
       (ts.Token SyntaxKind.EqualsEqualsToken "==") Samples.emptyWorld =
     (Normal (Root []),
      {| symbols := ∅;
         console := [ConsoleWarn [Str "found an unspecified node: "; Str "==";
                                  Str ", ";
                                  KindName SyntaxKind.EqualsEqualsToken]] |}).
Proof.
  split; [reflexivity|].
  exact (visitNode_unknown_kind_warns_and_skips Samples.lineNumbers
           Samples.analyzer (Root [])
           (ts.Token SyntaxKind.EqualsEqualsToken "==") Samples.emptyWorld
           eq_refl).
Defined.

(** C7, witness: [x = 5] adds the assignment and nothing else, even with a
    [visitNode] that would throw on any node; [a > b] is the three visits. *)
Lemma visitBinaryExpression_assigns_or_recurses_witness :
  ProgramAnalyzer.visitBinaryExpression (fun _ _ => JS.throw TypeError)
      (Root []) Samples.assignFive Samples.emptyWorld =
    (Normal (Root [Assignment "x" (Some (Samples.numeral "5")) []]),
     Samples.emptyWorld)
  /\ ProgramAnalyzer.visitNode Samples.lineNumbers Samples.analyzer (Root [])
       Samples.greater Samples.emptyWorld =
     (Normal (Root []), Samples.emptyWorld).
Proof.
  split.
  - destruct (visitBinaryExpression_assigns_or_recurses Samples.lineNumbers
                Samples.analyzer (fun _ _ => JS.throw TypeError) (Root [])
                "x = 5" (Samples.identifier "x")
                (ts.Token SyntaxKind.EqualsToken "=") (Samples.numeral "5")
                Samples.emptyWorld) as [Hassign _].
    destruct (Hassign eq_refl) as [Hrun _]. exact Hrun.
  - destruct (visitBinaryExpression_assigns_or_recurses Samples.lineNumbers
                Samples.analyzer
                (ProgramAnalyzer.visitNode Samples.lineNumbers Samples.analyzer)
                (Root []) "a > b" (Samples.identifier "a")
                (ts.Token SyntaxKind.GreaterThanToken ">")
                (Samples.identifier "b") Samples.emptyWorld)
      as (_ & Hother & Hvisit).
    etransitivity; [exact Hvisit|].
    rewrite Hother by discriminate. reflexivity.
Defined.

(** C10, witness: [const x = 5] gives an Assignment for a variable that the
    symbol table does not hold, and [let y] one with no expression. *)
Lemma visitVariableDeclaration_adds_assignment_witness :
  ProgramAnalyzer.visitNode Samples.lineNumbers Samples.analyzer (Root [])
      Samples.untypedInitialized Samples.emptyWorld =
    (Normal (Root [Assignment "x" (Some (Samples.numeral "5")) []]),
     Samples.emptyWorld)
  /\ ProgramAnalyzer.visitNode Samples.lineNumbers Samples.analyzer (Root [])
       Samples.bare Samples.emptyWorld =
     (Normal (Root [Assignment "y" None []]), Samples.emptyWorld).
Proof.
  split.
  - destruct (visitVariableDeclaration_adds_assignment Samples.lineNumbers
                Samples.analyzer (Root []) "x = 5" (Samples.identifier "x")
                None (Some (Samples.numeral "5")) Samples.emptyWorld)
      as [Hrun _].
    unfold Samples.untypedInitialized. rewrite Hrun. reflexivity.
  - destruct (visitVariableDeclaration_adds_assignment Samples.lineNumbers
                Samples.analyzer (Root []) "y" (Samples.identifier "y")
                None None Samples.emptyWorld) as (_ & _ & Hbare).
    exact (Hbare eq_refl eq_refl).
Defined.

(** The enumerator on the scenarios of the spec, with the false continuation
    of an [if] without [else] emitted: two paths for S1, true before false;
    three for S2; four for S3; one for an empty body. *)
Lemma scenario_paths :
  let build node :=
    fst (ProgramAnalyzer.visitNode Samples.lineNumbers Samples.analyzer
           (Root []) node Samples.emptyWorld) in
  let enumerate node :=
    match build node with
    | Normal root =>
        map (map Samples.stepText) (ContextPathsEvaluator.paths true root)
    | Throw _ => []
    end in
  enumerate Samples.flatIf = [["root"; "if"]; ["root"; "else"]]%string
  /\ enumerate Samples.scenario2
     = [["root"; "if"; "if"]; ["root"; "if"; "else"]; ["root"; "else"]]%string
  /\ enumerate Samples.scenario3
     = [["root"; "x"]; ["root"; "if"; "if"]; ["root"; "if"; "else"];
        ["root"; "else"]]%string
  /\ enumerate (ts.SyntaxList "" []) = [["root"]]%string.
Proof. cbv zeta. repeat split; vm_compute; reflexivity. Qed.

(** C8, witness: [if (a > b) { return 1; } else { return 2; }] at the top
    of a tree, scenario S1 of the spec. *)
Lemma if_else_paths_true_before_false_witness :
  IfElse.trueBeforeFalse true Samples.lineNumbers Samples.analyzer (Root [])
    (ts.getText Samples.flatIf) Samples.greater (Samples.returnBlock "1")
    (Samples.returnBlock "2") Samples.emptyWorld
    (Root [Conditional (Some Samples.greater)
             (Some {| startLine := 1; endLine := 1 |}) false true [] []]).
Proof.
  eapply (if_else_paths_true_before_false true Samples.lineNumbers
            Samples.analyzer (Root []) (ts.getText Samples.flatIf)
            Samples.greater (Samples.returnBlock "1")
            (Samples.returnBlock "2") Samples.emptyWorld).
  vm_compute. reflexivity.
Defined.

(** C8, counterexample: in
    [if (a > 0) { if (a < 5) { return 1; } else { return 2; } }
     else { return 3; }]
    both statements have both branches.  The builder puts the conditional
    of the inner statement under the true polarity of the outer one, so that
    the tree has three leaves, and three paths, not two, go through the
    conditional of the outer statement, two of them of the true polarity,
    under either reading of [emptyElsePath]. *)
Lemma nested_if_else_has_three_paths :
  fst (ProgramAnalyzer.visitNode Samples.lineNumbers Samples.analyzer
         (Root []) Samples.nestedIf Samples.emptyWorld)
    = Normal (Root [Samples.nestedConditional])
  /\ map (map Samples.stepText)
         (ContextPathsEvaluator.paths true Samples.nestedConditional)
     = [["if"; "if"]; ["if"; "else"]; ["else"]]%string
  /\ map (map Samples.stepText)
         (ContextPathsEvaluator.paths false Samples.nestedConditional)
     = [["if"; "if"]; ["if"; "else"]; ["else"]]%string
  /\ ContextPathsEvaluator.leaves true Samples.nestedConditional = 3
  /\ ContextPathsEvaluator.leaves false Samples.nestedConditional = 3
  /\ length (ContextPathsEvaluator.paths true Samples.nestedConditional) <> 2
  /\ length (ContextPathsEvaluator.paths false Samples.nestedConditional)
     <> 2.
Proof.
  split; [vm_compute; reflexivity|]. repeat split; try reflexivity.
  - vm_compute. discriminate.
  - vm_compute. discriminate.
Qed.

(** ** The pipeline *)

Section PipelineFacts.
Context {Path Condition PathNote : Type}.
Context (getFullText : ts.Node -> string)
        (checkProgramIsValidTypescript : string -> list string)
        (getLastLineNumber : ts.Node -> nat)
        (getLineNumbers : option ts.Node -> ts.Node -> LineNumbers)
        (getChildPaths : gmap string string -> Context -> list Path)
        (processProgramStatementLists : list Path -> list (list Condition))
        (toString : Condition -> string)
        (vars : Condition -> string)
        (checkPaths : nat -> gmap string string -> Context ->
                      list (list Condition) -> list PathNote + string).

Import Pipeline.

Local Abbreviation analyze :=
  (Pipeline.analyze getFullText checkProgramIsValidTypescript
     getLastLineNumber getLineNumbers getChildPaths
     processProgramStatementLists toString vars checkPaths).

Local Abbreviation build sourceFile :=
  (ProgramAnalyzer.visitNode getLineNumbers
     {| ProgramAnalyzer.sourceFile := Some sourceFile |} (Root []) sourceFile
     {| symbols := ∅; console := [] |}).

(** Once rejected, a promise stays rejected with the first reason. *)
Lemma rejected_is_final (reason : Reason) :
  (forall notes : list PathNote,
     resolve notes (Rejected reason) = Rejected reason)
  /\ (forall later, reject (PathNote := PathNote) later (Rejected reason)
                    = Rejected reason).
Proof. split; reflexivity. Qed.

(** Whatever the later stages do, a failed precheck is what the caller of
    [analyze] gets to see. *)
Lemma analyze_rejects_failed_precheck sourceFile :
  checkProgramIsValidTypescript (getFullText sourceFile) <> [] ->
  promise (analyze sourceFile) =
    Rejected (ErrorDocument
                (precheckMessage
                   (checkProgramIsValidTypescript (getFullText sourceFile)))).
Proof.
  intros Hd. unfold Pipeline.analyze.
  destruct (checkProgramIsValidTypescript (getFullText sourceFile))
    as [|d ds]; [contradiction|].
  destruct (build sourceFile) as [[context|e] w]; [|reflexivity].
  now destruct (checkPaths _ _ _ _).
Qed.

(** The stages that run do not depend on the diagnostics at all. *)
Lemma analyze_stages sourceFile :
  stages (analyze sourceFile) =
    match fst (build sourceFile) with
    | Normal _ => [Precheck; ContextTree; PathEnumeration;
                   StatementProcessing; SmtSolving]
    | Throw _ => [Precheck; ContextTree]
    end.
Proof.
  unfold Pipeline.analyze.
  destruct (build sourceFile) as [[context|e] w]; [|reflexivity].
  now destruct (checkPaths _ _ _ _).
Qed.

(** C1, on the code: [analyze] calls [reject] for a non-empty diagnostic
    list and goes on.  The promise is rejected with the precheck message, as
    the claim says; but the context tree is built, and when the builder
    completes, the paths are enumerated, the statements processed, and
    [checkPaths] is called and delivers its notes or its error to a promise
    that no longer listens. *)
Theorem analyze_runs_on_after_failed_precheck sourceFile context w :
  checkProgramIsValidTypescript (getFullText sourceFile) <> [] ->
  build sourceFile = (Normal context, w) ->
  promise (analyze sourceFile) =
    Rejected (ErrorDocument
                (precheckMessage
                   (checkProgramIsValidTypescript (getFullText sourceFile))))
  /\ stages (analyze sourceFile) =
       [Precheck; ContextTree; PathEnumeration; StatementProcessing;
        SmtSolving]
  /\ solved (analyze sourceFile) =
       Some (checkPaths (getLastLineNumber sourceFile) (symbols w) context
               (processProgramStatementLists
                  (getChildPaths (symbols w) context))).
Proof.
  intros Hd Hb. split; [now apply analyze_rejects_failed_precheck|].
  split; [now rewrite analyze_stages, Hb|].
  unfold Pipeline.analyze. rewrite Hb.
  now destruct (checkPaths _ _ _ _).
Qed.

(** X4: with an empty diagnostic list and a builder that completes, the
    promise of [analyze] settles as [checkPaths] does: fulfilled with its
    notes, or rejected with its error message. *)
Theorem analyze_settles_as_checkPaths sourceFile context w :
  checkProgramIsValidTypescript (getFullText sourceFile) = [] ->
  build sourceFile = (Normal context, w) ->
  promise (analyze sourceFile) =
    match checkPaths (getLastLineNumber sourceFile) (symbols w) context
            (processProgramStatementLists
               (getChildPaths (symbols w) context)) with
    | inl notes => Fulfilled notes
    | inr message => Rejected (ErrorDocument message)
    end.
Proof.
  intros Hd Hb. unfold Pipeline.analyze. rewrite Hd, Hb.
  now destruct (checkPaths _ _ _ _).
Qed.

End PipelineFacts.

(** C1, at the failing input: the file [const x: number = nope;] fails the
    precheck with one diagnostic; [analyze] rejects with it and still runs
    every later stage, down to the solver, which delivers its (empty) list
    of notes. *)
Lemma analyze_runs_on_after_failed_precheck_witness :
  Samples.validator (ts.getText Samples.badSource) = [Samples.badDiagnostic]
  /\ Pipeline.promise (Samples.analyzeSample Samples.badSource) =
       Pipeline.Rejected
         (Pipeline.ErrorDocument
            ("Analysis cannot be completed as source file does not meet "
             +:+ "precheck requirements: Cannot find name nope."))
  /\ Pipeline.stages (Samples.analyzeSample Samples.badSource) =
       [Pipeline.Precheck; Pipeline.ContextTree; Pipeline.PathEnumeration;
        Pipeline.StatementProcessing; Pipeline.SmtSolving]
  /\ Pipeline.solved (Samples.analyzeSample Samples.badSource)
     = Some (inl []).
Proof.
  split; [reflexivity|].
  apply (analyze_runs_on_after_failed_precheck ts.getText Samples.validator
           Samples.lastLineNumber Samples.lineNumbers Samples.childPaths
           Samples.statementLists Samples.stepText Samples.stepText
           Samples.solver Samples.badSource Samples.badContext
           Samples.badWorld).
  - vm_compute. discriminate.
  - reflexivity.
Defined.

(** X4, witness: the sample file that passes the precheck; the solver's
    notes are what the promise is fulfilled with. *)
Lemma analyze_settles_as_checkPaths_witness :
  Samples.validator (ts.getText Samples.goodSource) = []
  /\ Pipeline.promise (Samples.analyzeSample Samples.goodSource)
     = Pipeline.Fulfilled [].
Proof.
  split; [reflexivity|].
  apply (analyze_settles_as_checkPaths ts.getText Samples.validator
           Samples.lastLineNumber Samples.lineNumbers Samples.childPaths
           Samples.statementLists Samples.stepText Samples.stepText
           Samples.solver Samples.goodSource Samples.goodContext
           Samples.goodWorld); reflexivity.
Defined.

(** X3, witness: the builder on the one-declaration file; the root context
    comes back with the assignment added. *)
Lemma visitNode_only_adds_children_witness :
  ProgramAnalyzer.visitNode Samples.lineNumbers Samples.analyzer (Root [])
      Samples.badSource Samples.emptyWorld
    = (Normal Samples.badContext, Samples.badWorld)
  /\ ContextView.extends (Root []) Samples.badContext.
Proof.
  split; [reflexivity|].
  apply (visitNode_only_adds_children Samples.lineNumbers Samples.analyzer
           (Root []) Samples.badSource Samples.emptyWorld Samples.badContext
           Samples.badWorld).
  reflexivity.
Defined.

(** * Further properties *)

(** ** The condition evaluator: what the dispatch can return *)

Section EvaluatorOutcomes.
Context {Z3Expr CustomContext : Type}.
Implicit Types (ev : @ConditionEvaluator.t Z3Expr) (context : CustomContext).
Implicit Types (node lhs rhs op : ts.Node) (out : list ConsoleEntry).

Import ConditionEvaluator EvaluatorView.

(** [visitBinaryExpression] called bare logs the text and fails. *)
Lemma visitBinaryExpression_unbound context node out :
  visitBinaryExpression (Z3Expr := Z3Expr) None context node out =
    (Throw TypeError,
     out ++ [ConsoleLog [Str "Found a binary expression: ";
                         Str (ts.getText node)]]).
Proof. destruct node; reflexivity. Qed.

(** No function of the jump table, called bare, returns an expression: the
    ones that would build one need [this], the others are stubs. *)
Lemma invoke_noExpression (visitFn : Visitor) context a1 a2 a3 out :
  noExpression
    (invoke (Z3Expr := Z3Expr) visitBinaryExpression visitFn context
       a1 a2 a3 out).
Proof.
  destruct visitFn; cbn [invoke].
  - now left.
  - rewrite visitBinaryExpression_unbound. now left.
  - unfold visitNonNullExpression, JS.bind; cbn.
    destruct (ts.expression a1); [right | left]; reflexivity.
  - now right.
  - now right.
  - destruct a2; now left.
  - destruct a2; now left.
  - destruct a2; now left.
  - destruct a2; now left.
  - destruct a2; now left.
Qed.

(** X5: neither entry point of the evaluator ever returns an expression.
    Whatever the condition, the environment and the z3 context,
    [visitCondition] and [visitBinaryExpression], called on the evaluator,
    end in a TypeError or return [undefined]: every comparison is dispatched
    to a handler that runs without [this], and the other handlers are
    stubs. *)
Theorem evaluator_never_yields_expression
    ev context (condition : option ts.Node) node out :
  noExpression (visitCondition (Some ev) context condition out)
  /\ noExpression (visitBinaryExpression (Some ev) context node out).
Proof.
  split.
  - destruct condition as [n|]; [|now left].
    unfold visitCondition, JS.bind; cbn.
    destruct (jumpTable (ts.kind n)); [apply invoke_noExpression | now right].
  - destruct node as [| | | | | | | | |text lhs op rhs| | | | | | |];
      try (now left).
    cbn. unfold JS.bind, console_log, JS.modify; cbn.
    destruct (jumpTable (ts.kind op)); [apply invoke_noExpression|].
    now right.
Qed.

(** X6: a comparison handler called on an evaluator whose [init] has not
    run logs the operator and fails with a TypeError at [this.z3Context.GT]
    (and likewise for the other four); the operands are not read. *)
Theorem comparison_before_init_throws
    (env : gmap string (@Value Z3Expr)) context
    (lhs rhs : option ts.Node) op out :
  let this := Some {| z3Context := None; pathParams := env |} in
  let failed label :=
    (Throw (A := @Value Z3Expr) TypeError,
     out ++ [ConsoleLog [Str label; Str (ts.getText op)]]) in
  visitGreaterThanToken this context lhs (Some op) rhs out
    = failed "Got greater than token "%string
  /\ visitEqualsGreaterThanToken this context lhs (Some op) rhs out
     = failed "Got greater than equals token "%string
  /\ visitLessThanToken this context lhs (Some op) rhs out
     = failed "Got less than token "%string
  /\ visitLessThanEqualsToken this context lhs (Some op) rhs out
     = failed "Got less than equals token "%string
  /\ visitEqualsEqualsToken this context lhs (Some op) rhs out
     = failed "Got equals equals token "%string.
Proof. cbv zeta. repeat split. Qed.

(** X7: the handlers of [||] and of the non-null assertion are stubs.  For
    [a || b], [visitBinaryExpression] logs the text of the left operand and
    returns [undefined]; for [a!], [visitCondition] logs the text of [a] and
    returns [undefined].  Neither translates an operand. *)
Theorem or_and_non_null_return_undefined
    ev context text lhs optext rhs inner out :
  visitBinaryExpression (Some ev) context
      (ts.BinaryExpression text lhs (ts.Token SyntaxKind.BarBarToken optext)
         rhs) out =
    (Normal Undefined,
     out ++ [ConsoleLog [Str "Found a binary expression: "; Str text];
             ConsoleLog [Str "Got bar bar token "; Str (ts.getText lhs)]])
  /\ visitCondition (Some ev) context
       (Some (ts.NonNullExpression text inner)) out =
     (Normal Undefined,
      out ++ [ConsoleLog [Str "Got non null expression ";
                          Str (ts.getText inner)]]).
Proof. split; run_method. Qed.

End EvaluatorOutcomes.

(** ** The context tree builder: traversal *)

Section BuilderTraversal.
Context (getLineNumbers : option ts.Node -> ts.Node -> LineNumbers).
Context (this : ProgramAnalyzer.t).
Implicit Types (c context : Context) (node lhs rhs op : ts.Node) (w : World).
Implicit Types (nodes rest : list ts.Node).

Import ProgramAnalyzer Walk.

Local Abbreviation visit := (visitNode getLineNumbers this).

(** One more warning on the console. *)
Local Abbreviation warned w node :=
  {| symbols := symbols w;
     console := console w
       ++ [ConsoleWarn [Str "found an unspecified node: ";
                        Str (ts.getText node); Str ", ";
                        KindName (ts.kind node)]] |}.

Lemma forEach_cons (f : Context -> ts.Node -> M Context) node rest c w :
  forEach f (node :: rest) c w = (c <- f c node ;; forEach f rest c)%js w.
Proof. reflexivity. Qed.

(** Walking a list is walking its front and then its back from where the
    front ended; the back is not walked when the front throws. *)
Lemma forEach_app (f : Context -> ts.Node -> M Context) nodes rest c w :
  forEach f (nodes ++ rest) c w =
    (c <- forEach f nodes c ;; forEach f rest c)%js w.
Proof.
  revert c w. induction nodes as [|n nodes IH]; intros c w; [reflexivity|].
  cbn [app]. rewrite forEach_cons.
  change (forEach f (n :: nodes) c) with (c <- f c n ;; forEach f nodes c)%js.
  unfold JS.bind.
  destruct (f c n w) as [[c1|e] w1]; [exact (IH c1 w1) | reflexivity].
Qed.

Lemma forEach_singleton (f : Context -> ts.Node -> M Context) node c w :
  forEach f [node] c w = f c node w.
Proof.
  rewrite forEach_cons. unfold JS.bind.
  now destruct (f c node w) as [[c1|e] w1].
Qed.

(** X8: the statements of a file, and the children of a syntax list, are
    visited one after the other, in order, each from the context, symbol
    table and console that the one before left.  Nothing happens for an
    empty list; a list of one statement is visited as that statement is; a
    list is visited by visiting its first statement and then the rest;
    visiting [front ++ back] is visiting [front] and then [back]; and [back]
    is not visited at all when a statement of [front] throws. *)
Theorem statements_are_visited_in_sequence
    text text1 text2 (node : ts.Node) (nodes rest : list ts.Node)
    (c : Context) (w : World) :
  (visit c (ts.SourceFile text []) w = (Normal c, w)
   /\ visit c (ts.SourceFile text [node]) w = visit c node w
   /\ visit c (ts.SourceFile text (node :: rest)) w =
      (c <- visit c node ;; visit c (ts.SourceFile text1 rest))%js w
   /\ visit c (ts.SourceFile text (nodes ++ rest)) w =
      (c <- visit c (ts.SourceFile text1 nodes) ;;
       visit c (ts.SourceFile text2 rest))%js w
   /\ (forall e w1,
         visit c (ts.SourceFile text1 nodes) w = (Throw e, w1) ->
         visit c (ts.SourceFile text (nodes ++ rest)) w = (Throw e, w1)))
  /\ (visit c (ts.SyntaxList text []) w = (Normal c, w)
      /\ visit c (ts.SyntaxList text [node]) w = visit c node w
      /\ visit c (ts.SyntaxList text (node :: rest)) w =
         (c <- visit c node ;; visit c (ts.SyntaxList text1 rest))%js w
      /\ visit c (ts.SyntaxList text (nodes ++ rest)) w =
         (c <- visit c (ts.SyntaxList text1 nodes) ;;
          visit c (ts.SyntaxList text2 rest))%js w
      /\ (forall e w1,
            visit c (ts.SyntaxList text1 nodes) w = (Throw e, w1) ->
            visit c (ts.SyntaxList text (nodes ++ rest)) w = (Throw e, w1))).
Proof.
  assert (Hfile : visit c (ts.SourceFile text (nodes ++ rest)) w =
    (c <- visit c (ts.SourceFile text1 nodes) ;;
     visit c (ts.SourceFile text2 rest))%js w)
    by apply (forEach_app visit).
  assert (Hlist : visit c (ts.SyntaxList text (nodes ++ rest)) w =
    (c <- visit c (ts.SyntaxList text1 nodes) ;;
     visit c (ts.SyntaxList text2 rest))%js w)
    by apply (forEach_app visit).
  split.
  - split; [reflexivity|]. split; [apply (forEach_singleton visit)|].
    split; [reflexivity|]. split; [exact Hfile|].
    intros e w1 H. rewrite Hfile. unfold JS.bind. now rewrite H.
  - split; [reflexivity|]. split; [apply (forEach_singleton visit)|].
    split; [reflexivity|]. split; [exact Hlist|].
    intros e w1 H. rewrite Hlist. unfold JS.bind. now rewrite H.
Qed.

Lemma silentLeaf_visit node c w :
  silentLeaf node = true -> visit c node w = (Normal c, w).
Proof.
  intros H. destruct node as [k text| | | | | | | | | | | | | | | |];
    try discriminate.
  destruct k; cbn in H; try discriminate; reflexivity.
Qed.

(** X9: a node without fields whose kind has a visitor is visited with no
    effect at all: the context, the symbol table and the console are as
    before.  This holds for identifiers, literals and operator tokens, and
    also for a return statement and a conditional expression, into which the
    builder never looks; the statements after a [return] are visited as if
    it were not there. *)
Theorem silent_leaf_has_no_effect node rest c w :
  silentLeaf node = true ->
  visit c node w = (Normal c, w)
  /\ forEach visit (node :: rest) c w = forEach visit rest c w.
Proof.
  intros H. pose proof (silentLeaf_visit node c w H) as Hv.
  split; [exact Hv|]. rewrite forEach_cons. unfold JS.bind. now rewrite Hv.
Qed.

(** X10: a binary expression other than an assignment, over two operands
    without fields (identifiers, literals), adds nothing to the tree and to
    the symbol table; the builder warns about its operator token exactly
    when the kind of the token is not a key of the builder's jump table,
    which is so for [==], [!=], [&&] and [||]. *)
Theorem comparison_adds_nothing c text lhs k optext rhs w :
  optext <> "="%string ->
  silentLeaf lhs = true -> silentLeaf rhs = true ->
  readsFields k = false ->
  visit c (ts.BinaryExpression text lhs (ts.Token k optext) rhs) w =
    (Normal c,
     match jumpTable k with
     | Some _ => w
     | None => warned w (ts.Token k optext)
     end)
  /\ jumpTable SyntaxKind.EqualsEqualsToken = None
  /\ jumpTable SyntaxKind.ExclamationEqualsToken = None
  /\ jumpTable SyntaxKind.AmpersandAmpersandToken = None
  /\ jumpTable SyntaxKind.BarBarToken = None.
Proof.
  intros Hop Hl Hr Hk. split; [|repeat split].
  change (visit c (ts.BinaryExpression text lhs (ts.Token k optext) rhs) w)
    with (visitBinaryExpression visit c
            (ts.BinaryExpression text lhs (ts.Token k optext) rhs) w).
  unfold visitBinaryExpression, JS.bind. rewrite log_silent.
  cbn [ts.getText]. rewrite bool_decide_eq_false_2 by exact Hop.
  rewrite (silentLeaf_visit lhs c w Hl).
  assert (Hv : visit c (ts.Token k optext) w =
    (Normal c, match jumpTable k with
               | Some _ => w
               | None => warned w (ts.Token k optext)
               end)).
  { destruct k; cbn in Hk; try discriminate; reflexivity. }
  rewrite Hv. apply silentLeaf_visit, Hr.
Qed.

End BuilderTraversal.

(** ** The context tree builder: parameters *)

Section BuilderParameters.
Context (getLineNumbers : option ts.Node -> ts.Node -> LineNumbers).
Context (this : ProgramAnalyzer.t).
Implicit Types (c context : Context) (node : ts.Node) (w : World).
Implicit Types (parameters front back : list ts.Node).

Import ProgramAnalyzer Walk.

Local Abbreviation visit := (visitNode getLineNumbers this).

(** The world with the parameters registered. *)
Local Abbreviation registered parameters w :=
  {| symbols := register parameters (symbols w); console := console w |}.

Lemma register_app front back (vars : gmap string string) :
  register (front ++ back) vars = register back (register front vars).
Proof. apply fold_left_app. Qed.

(** A parameter with a type annotation is entered in the symbol table and
    leaves the context alone. *)
Lemma visit_typed_parameter parameter c w :
  is_Some (declared parameter) ->
  visit c parameter w = (Normal c, registered [parameter] w).
Proof.
  intros [[x ty] H].
  destruct parameter; cbn in H; try discriminate.
  destruct type; [reflexivity | discriminate].
Qed.

Lemma forEach_typed_parameters parameters c w :
  Forall (fun p => is_Some (declared p)) parameters ->
  forEach visit parameters c w = (Normal c, registered parameters w).
Proof.
  intros H. revert w. induction H as [|p ps Hp _ IH]; intros w.
  - now destruct w.
  - rewrite forEach_cons. unfold JS.bind.
    rewrite (visit_typed_parameter p c w Hp). rewrite IH. reflexivity.
Qed.

(** X11: a function declaration or arrow function whose parameters all have
    a type annotation registers them from left to right, name by name with
    the text of the annotation, and then visits the body, if there is one,
    under the same context; nothing else happens.  A parameter declared last
    under a name decides the type the table holds for it. *)
Theorem typed_parameters_are_registered
    text parameters (body : option ts.Node) arrowBody c w :
  Forall (fun p => is_Some (declared p)) parameters ->
  visit c (ts.FunctionDeclaration text parameters body) w =
    match body with
    | Some body => visit c body (registered parameters w)
    | None => (Normal c, registered parameters w)
    end
  /\ visit c (ts.ArrowFunction text parameters arrowBody) w =
     visit c arrowBody (registered parameters w)
  /\ (forall front last name type,
        parameters = front ++ [last] -> declared last = Some (name, type) ->
        register parameters (symbols w) !! name = Some type).
Proof.
  intros H. split; [|split].
  - change (visit c (ts.FunctionDeclaration text parameters body) w)
      with (visitFunctionDeclaration visit c
              (ts.FunctionDeclaration text parameters body) w).
    unfold visitFunctionDeclaration, JS.bind. rewrite !log_silent.
    rewrite (forEach_typed_parameters parameters c w H).
    now destruct body.
  - change (visit c (ts.ArrowFunction text parameters arrowBody) w)
      with (visitArrowFunction visit c
              (ts.ArrowFunction text parameters arrowBody) w).
    unfold visitArrowFunction, JS.bind. rewrite log_silent.
    now rewrite (forEach_typed_parameters parameters c w H).
  - intros front last name type -> Hlast. rewrite register_app.
    cbn. rewrite Hlast. apply lookup_insert_eq.
Qed.

(** X12: a parameter without type annotation stops the builder with a
    TypeError.  The parameters before it are registered; the parameters
    after it and the body are not visited, whatever they are, and no context
    is added. *)
Theorem untyped_parameter_throws
    text front ptext name back (body : option ts.Node) arrowBody c w :
  Forall (fun p => is_Some (declared p)) front ->
  let parameters := front ++ ts.Parameter_ ptext name None :: back in
  visit c (ts.Parameter_ ptext name None) w = (Throw TypeError, w)
  /\ visit c (ts.FunctionDeclaration text parameters body) w =
     (Throw TypeError, registered front w)
  /\ visit c (ts.ArrowFunction text parameters arrowBody) w =
     (Throw TypeError, registered front w).
Proof.
  intros H parameters.
  assert (Hps : forEach visit parameters c w
                = (Throw TypeError, registered front w)).
  { subst parameters. rewrite forEach_app. unfold JS.bind.
    rewrite (forEach_typed_parameters front c w H). reflexivity. }
  split; [reflexivity|]. split.
  - change (visit c (ts.FunctionDeclaration text parameters body) w)
      with (visitFunctionDeclaration visit c
              (ts.FunctionDeclaration text parameters body) w).
    unfold visitFunctionDeclaration, JS.bind. rewrite !log_silent.
    now rewrite Hps.
  - change (visit c (ts.ArrowFunction text parameters arrowBody) w)
      with (visitArrowFunction visit c
              (ts.ArrowFunction text parameters arrowBody) w).
    unfold visitArrowFunction, JS.bind. rewrite log_silent.
    now rewrite Hps.
Qed.

End BuilderParameters.

(** ** The context tree builder: how a visit ends *)

Section BuilderOutcome.
Context (getLineNumbers : option ts.Node -> ts.Node -> LineNumbers).
Context (this : ProgramAnalyzer.t).
Implicit Types (c context : Context) (node : ts.Node) (w : World).
Implicit Types (b : bool) (nodes : list ts.Node).

Import ProgramAnalyzer Walk.

Local Abbreviation visit := (visitNode getLineNumbers this).

Lemma endsAs_ret c w : endsAs true (JS.ret c w).
Proof. now exists c. Qed.

(** A sequence ends normally when both parts do, and in the TypeError of
    the part that fails first otherwise. *)
Lemma endsAs_bind b1 b2 (m : M Context) (k : Context -> M Context) w :
  endsAs b1 (m w) ->
  (forall c1 w1, endsAs b2 (k c1 w1)) ->
  endsAs (b1 && b2) (JS.bind m k w).
Proof.
  intros Hm Hk. unfold JS.bind.
  destruct (m w) as [[c1|e] w1], b1; cbn in *.
  - apply Hk.
  - discriminate.
  - now destruct Hm.
  - exact Hm.
Qed.

Lemma endsAs_then b (m : M Context) (h : Context -> Context) w :
  endsAs b (m w) ->
  endsAs b (JS.bind m (fun c => JS.ret (h c)) w).
Proof.
  intros Hm. rewrite <- (andb_true_r b).
  apply endsAs_bind; [exact Hm | intros; apply endsAs_ret].
Qed.

Lemma endsAs_forEach (f : Context -> ts.Node -> M Context) nodes :
  Forall (fun n => forall c w, endsAs (walkable n) (f c n w)) nodes ->
  forall c w, endsAs (forallb walkable nodes) (forEach f nodes c w).
Proof.
  induction 1 as [|n rest Hn _ IH]; intros c w; [apply endsAs_ret|].
  rewrite forEach_cons. cbn [forallb].
  apply endsAs_bind; [apply Hn | intros c1 w1; apply IH].
Qed.

Lemma endsAs_optional (f : Context -> ts.Node -> M Context) o :
  Forall (fun n => forall c w, endsAs (walkable n) (f c n w))
    (NodeInduction.optional o) ->
  forall c w,
    endsAs (walkableOption walkable o)
      (match o with Some n => f c n | None => JS.ret c end w).
Proof.
  destruct o as [n|]; cbn; [|intros _ c w; now exists c].
  now intros [Hn _]%Forall_cons.
Qed.

(** The builder ends normally on the walkable trees and in a TypeError on
    the others. *)
Lemma visitNode_endsAs node :
  forall c w, endsAs (walkable node) (visit c node w).
Proof.
  induction node as [node IH] using subnodes_ind.
  destruct node; cbn [NodeInduction.subnodes] in IH.
  - intros c w. destruct kind; cbn; eauto.
  - exact (endsAs_forEach _ _ IH).
  - exact (endsAs_forEach _ _ IH).
  - exact (endsAs_forEach _ _ IH).
  - exact (endsAs_forEach _ _ IH).
  - apply Forall_cons in IH as [He _]. exact He.
  - exact (endsAs_forEach _ _ IH).
  - exact (endsAs_optional visit initializer IH).
  - apply Forall_cons in IH as [He IH].
    apply Forall_cons in IH as [Ht Hel].
    intros c w. cbn [walkable].
    change (visit c (ts.IfStatement text node1 node2 elseStatement) w)
      with (visitIfStatement getLineNumbers visit this c
              (ts.IfStatement text node1 node2 elseStatement) w).
    unfold visitIfStatement. unfold JS.bind at 1. rewrite log_silent.
    apply endsAs_bind; [apply He|]. intros c1 w1.
    apply endsAs_bind; [apply Ht|]. intros c2 w2.
    apply endsAs_then.
    destruct elseStatement as [el|]; cbn in Hel |- *; [|now eexists].
    apply Forall_cons in Hel as [Hel _]. apply Hel.
  - apply Forall_cons in IH as [Hl IH].
    apply Forall_cons in IH as [Ho IH].
    apply Forall_cons in IH as [Hr _].
    intros c w. cbn [walkable].
    change (visit c (ts.BinaryExpression text node1 node2 node3) w)
      with (visitBinaryExpression visit c
              (ts.BinaryExpression text node1 node2 node3) w).
    unfold visitBinaryExpression. unfold JS.bind at 1. rewrite log_silent.
    case_bool_decide; [apply endsAs_ret|]. cbn [orb].
    apply endsAs_bind; [apply Hl|]. intros c1 w1.
    apply endsAs_bind; [apply Ho|]. intros c2 w2. apply Hr.
  - intros c w. destruct type as [ty|]; cbn; [now exists c | reflexivity].
  - exact (endsAs_forEach _ _ IH).
  - apply Forall_cons in IH as [Hn IH].
    apply Forall_app in IH as [_ Hi].
    intros c w. cbn [walkable].
    change (visit c (ts.VariableDeclaration text node type initializer) w)
      with (visitVariableDeclaration visit c
              (ts.VariableDeclaration text node type initializer) w).
    unfold visitVariableDeclaration. unfold JS.bind at 1. rewrite log_silent.
    unfold JS.bind at 1.
    destruct type as [ty|]; cbn [Contexts.addVar JS.modify JS.ret];
      (apply endsAs_bind; [apply Hn|]; intros c1 w1;
       exact (endsAs_optional visit initializer Hi c1 w1)).
  - apply Forall_app in IH as [Hp Hb].
    apply Forall_cons in Hb as [Hb _].
    intros c w. cbn [walkable].
    change (visit c (ts.ArrowFunction text parameters node) w)
      with (visitArrowFunction visit c
              (ts.ArrowFunction text parameters node) w).
    unfold visitArrowFunction. unfold JS.bind at 1. rewrite log_silent.
    apply endsAs_bind; [exact (endsAs_forEach _ _ Hp c w)|]. intros c1 w1.
    apply Hb.
  - apply Forall_app in IH as [Hp Hb].
    intros c w. cbn [walkable].
    change (visit c (ts.FunctionDeclaration text parameters body) w)
      with (visitFunctionDeclaration visit c
              (ts.FunctionDeclaration text parameters body) w).
    unfold visitFunctionDeclaration. unfold JS.bind at 1 2.
    rewrite !log_silent.
    apply endsAs_bind; [exact (endsAs_forEach _ _ Hp c w)|]. intros c1 w1.
    exact (endsAs_optional visit body Hb c1 w1).
  - apply Forall_cons in IH as [He IH].
    apply Forall_cons in IH as [Hn _].
    intros c w. cbn [walkable].
    change (visit c (ts.PropertyAccessExpression text node1 node2) w)
      with (visitPropertyAccessExpression visit c
              (ts.PropertyAccessExpression text node1 node2) w).
    unfold visitPropertyAccessExpression. unfold JS.bind at 1.
    rewrite log_silent.
    apply endsAs_bind; [apply He | intros; apply Hn].
  - intros c w. now exists c.
Qed.

(** X13: the builder completes exactly on the walkable trees.  A visit ends
    normally if and only if, on the way the builder takes through the tree,
    every parameter has a type annotation (and every node has the fields its
    visitor reads, as every parsed node has); otherwise it ends in a
    TypeError and in no other error. *)
Theorem visitNode_completes_iff_walkable node c w :
  ((exists context, fst (visit c node w) = Normal context)
   <-> walkable node = true)
  /\ (fst (visit c node w) = Throw TypeError <-> walkable node = false).
Proof.
  pose proof (visitNode_endsAs node c w) as H.
  destruct (walkable node); cbn in H.
  - destruct H as [context H]. rewrite H. split; split; eauto; discriminate.
  - rewrite H. split; split; eauto; try discriminate.
    now intros [context Hc].
Qed.

End BuilderOutcome.

(** ** The context tree builder: what a visit leaves of the world *)

Section BuilderWorld.
Context (getLineNumbers : option ts.Node -> ts.Node -> LineNumbers).
Context (this : ProgramAnalyzer.t).
Implicit Types (c context : Context) (node : ts.Node) (w : World).
Implicit Types (nodes : list ts.Node).

Import ProgramAnalyzer Walk.

Local Abbreviation visit := (visitNode getLineNumbers this).

Lemma worldGrows_refl w : worldGrows w w.
Proof.
  split; [|done]. exists []. split; [now rewrite app_nil_r | constructor].
Qed.

Lemma worldGrows_trans w1 w2 w3 :
  worldGrows w1 w2 -> worldGrows w2 w3 -> worldGrows w1 w3.
Proof.
  intros [(m1 & H1 & F1) D1] [(m2 & H2 & F2) D2]. split.
  - exists (m1 ++ m2). split; [now rewrite H2, H1, app_assoc|].
    apply Forall_app; auto.
  - set_solver.
Qed.

Lemma worldGrows_warn w text k :
  worldGrows w
    {| symbols := symbols w;
       console := console w
         ++ [ConsoleWarn [Str "found an unspecified node: "; Str text;
                          Str ", "; KindName k]] |}.
Proof.
  split; [|done]. eexists. split; [reflexivity|].
  repeat constructor. now exists text, k.
Qed.

Lemma worldGrows_addVar w (x ty : string) :
  worldGrows w {| symbols := <[x := ty]> (symbols w); console := console w |}.
Proof.
  split; cbn.
  - exists []. split; [now rewrite app_nil_r | constructor].
  - rewrite dom_insert_L. set_solver.
Qed.

Lemma worldGrows_bind {A B} (m : M A) (k : A -> M B) w :
  worldGrows w (snd (m w)) ->
  (forall a w1, worldGrows w1 (snd (k a w1))) ->
  worldGrows w (snd (JS.bind m k w)).
Proof.
  intros Hm Hk. unfold JS.bind. destruct (m w) as [[a|e] w1]; cbn in *.
  - eapply worldGrows_trans; [exact Hm | apply Hk].
  - exact Hm.
Qed.

Lemma worldGrows_forEach (f : Context -> ts.Node -> M Context) nodes :
  Forall (fun n => forall c w, worldGrows w (snd (f c n w))) nodes ->
  forall c w, worldGrows w (snd (forEach f nodes c w)).
Proof.
  induction 1 as [|n rest Hn _ IH]; intros c w; [apply worldGrows_refl|].
  rewrite forEach_cons.
  apply worldGrows_bind; [apply Hn | intros c1 w1; apply IH].
Qed.

Lemma worldGrows_optional (f : Context -> ts.Node -> M Context) o :
  Forall (fun n => forall c w, worldGrows w (snd (f c n w)))
    (NodeInduction.optional o) ->
  forall c w,
    worldGrows w (snd (match o with Some n => f c n | None => JS.ret c end w)).
Proof.
  destruct o as [n|]; cbn; [|intros _ c w; apply worldGrows_refl].
  now intros [Hn _]%Forall_cons.
Qed.

(** X14: whatever a visit does and however it ends, normally or in an
    exception, all it leaves on the console are warnings of the form "found
    an unspecified node: <text>, <kind>" added behind what was there (with
    [LOGGING] off the builder logs nothing), and no name that the symbol
    table held has left it. *)
Theorem visitNode_only_warns_and_keeps_names node :
  forall c w, worldGrows w (snd (visit c node w)).
Proof.
  induction node as [node IH] using subnodes_ind.
  destruct node; cbn [NodeInduction.subnodes] in IH.
  - intros c w. destruct kind; cbn;
      first [apply worldGrows_refl | apply worldGrows_warn].
  - exact (worldGrows_forEach _ _ IH).
  - exact (worldGrows_forEach _ _ IH).
  - exact (worldGrows_forEach _ _ IH).
  - exact (worldGrows_forEach _ _ IH).
  - apply Forall_cons in IH as [He _]. exact He.
  - exact (worldGrows_forEach _ _ IH).
  - exact (worldGrows_optional visit initializer IH).
  - apply Forall_cons in IH as [He IH].
    apply Forall_cons in IH as [Ht Hel].
    intros c w.
    change (visit c (ts.IfStatement text node1 node2 elseStatement) w)
      with (visitIfStatement getLineNumbers visit this c
              (ts.IfStatement text node1 node2 elseStatement) w).
    unfold visitIfStatement. unfold JS.bind at 1. rewrite log_silent.
    apply worldGrows_bind; [apply He|]. intros c1 w1.
    apply worldGrows_bind; [apply Ht|]. intros c2 w2.
    apply worldGrows_bind; [|intros; apply worldGrows_refl].
    destruct elseStatement as [el|]; cbn in Hel |- *;
      [|apply worldGrows_refl].
    apply Forall_cons in Hel as [Hel _]. apply Hel.
  - apply Forall_cons in IH as [Hl IH].
    apply Forall_cons in IH as [Ho IH].
    apply Forall_cons in IH as [Hr _].
    intros c w.
    change (visit c (ts.BinaryExpression text node1 node2 node3) w)
      with (visitBinaryExpression visit c
              (ts.BinaryExpression text node1 node2 node3) w).
    unfold visitBinaryExpression. unfold JS.bind at 1. rewrite log_silent.
    case_bool_decide; [apply worldGrows_refl|].
    apply worldGrows_bind; [apply Hl|]. intros c1 w1.
    apply worldGrows_bind; [apply Ho|]. intros c2 w2. apply Hr.
  - intros c w. destruct type as [ty|]; cbn;
      [apply worldGrows_addVar | apply worldGrows_refl].
  - exact (worldGrows_forEach _ _ IH).
  - apply Forall_cons in IH as [Hn IH].
    apply Forall_app in IH as [_ Hi].
    intros c w.
    change (visit c (ts.VariableDeclaration text node type initializer) w)
      with (visitVariableDeclaration visit c
              (ts.VariableDeclaration text node type initializer) w).
    unfold visitVariableDeclaration. unfold JS.bind at 1. rewrite log_silent.
    apply worldGrows_bind.
    { destruct type as [ty|];
        [apply worldGrows_addVar | apply worldGrows_refl]. }
    intros _ w0.
    apply worldGrows_bind; [apply Hn|]. intros c1 w1.
    exact (worldGrows_optional visit initializer Hi c1 w1).
  - apply Forall_app in IH as [Hp Hb].
    apply Forall_cons in Hb as [Hb _].
    intros c w.
    change (visit c (ts.ArrowFunction text parameters node) w)
      with (visitArrowFunction visit c
              (ts.ArrowFunction text parameters node) w).
    unfold visitArrowFunction. unfold JS.bind at 1. rewrite log_silent.
    apply worldGrows_bind; [exact (worldGrows_forEach _ _ Hp c w)|].
    intros c1 w1. apply Hb.
  - apply Forall_app in IH as [Hp Hb].
    intros c w.
    change (visit c (ts.FunctionDeclaration text parameters body) w)
      with (visitFunctionDeclaration visit c
              (ts.FunctionDeclaration text parameters body) w).
    unfold visitFunctionDeclaration. unfold JS.bind at 1 2.
    rewrite !log_silent.
    apply worldGrows_bind; [exact (worldGrows_forEach _ _ Hp c w)|].
    intros c1 w1. exact (worldGrows_optional visit body Hb c1 w1).
  - apply Forall_cons in IH as [He IH].
    apply Forall_cons in IH as [Hn _].
    intros c w.
    change (visit c (ts.PropertyAccessExpression text node1 node2) w)
      with (visitPropertyAccessExpression visit c
              (ts.PropertyAccessExpression text node1 node2) w).
    unfold visitPropertyAccessExpression. unfold JS.bind at 1.
    rewrite log_silent.
    apply worldGrows_bind; [apply He | intros; apply Hn].
  - intros c w. apply worldGrows_warn.
Qed.

End BuilderWorld.

(** ** The pipeline: what the builder's outcome decides *)

Section PipelineOutcome.
Context {Path Condition PathNote : Type}.
Context (getFullText : ts.Node -> string)
        (checkProgramIsValidTypescript : string -> list string)
        (getLastLineNumber : ts.Node -> nat)
        (getLineNumbers : option ts.Node -> ts.Node -> LineNumbers)
        (getChildPaths : gmap string string -> Context -> list Path)
        (processProgramStatementLists : list Path -> list (list Condition))
        (toString : Condition -> string)
        (vars : Condition -> string)
        (checkPaths : nat -> gmap string string -> Context ->
                      list (list Condition) -> list PathNote + string).

Import Pipeline Walk.

Local Abbreviation analyze :=
  (Pipeline.analyze getFullText checkProgramIsValidTypescript
     getLastLineNumber getLineNumbers getChildPaths
     processProgramStatementLists toString vars checkPaths).

Local Abbreviation build sourceFile :=
  (ProgramAnalyzer.visitNode getLineNumbers
     {| ProgramAnalyzer.sourceFile := Some sourceFile |} (Root []) sourceFile
     {| symbols := ∅; console := [] |}).

Lemma build_endsAs sourceFile :
  endsAs (walkable sourceFile) (build sourceFile).
Proof. apply visitNode_endsAs. Qed.

(** X15: on a file the builder cannot walk to the end (a parameter without
    type annotation on its way), [analyze] stops in the builder: the paths
    are not enumerated and [checkPaths] is not called.  The TypeError escapes
    the executor of the promise, which rejects with it when the precheck had
    passed; after a failed precheck the promise keeps the precheck error. *)
Theorem analyze_stops_on_unwalkable_tree sourceFile :
  walkable sourceFile = false ->
  stages (analyze sourceFile) = [Precheck; ContextTree]
  /\ solved (analyze sourceFile) = None
  /\ promise (analyze sourceFile) =
       match checkProgramIsValidTypescript (getFullText sourceFile) with
       | [] => Rejected (Thrown TypeError)
       | diagnostics => Rejected (ErrorDocument (precheckMessage diagnostics))
       end.
Proof.
  intros Hw. pose proof (build_endsAs sourceFile) as H.
  rewrite Hw in H. cbn in H.
  unfold Pipeline.analyze.
  destruct (build sourceFile) as [[context|e] w]; [discriminate|].
  cbn in H. injection H as ->. repeat split.
  now destruct (checkProgramIsValidTypescript (getFullText sourceFile)).
Qed.

(** X16: [analyze] gets as far as the solver exactly on the files the
    builder walks to the end; whether the precheck passed has no part in
    it. *)
Theorem analyze_reaches_solver_iff_walkable sourceFile :
  (In SmtSolving (stages (analyze sourceFile)) <-> walkable sourceFile = true)
  /\ (is_Some (solved (analyze sourceFile)) <-> walkable sourceFile = true).
Proof.
  pose proof (build_endsAs sourceFile) as H.
  unfold Pipeline.analyze.
  destruct (walkable sourceFile); cbn in H.
  - destruct H as [context H].
    destruct (build sourceFile) as [[c|e] w]; [|discriminate].
    destruct (checkPaths _ _ _ _); cbn; split; split; eauto 10.
  - destruct (build sourceFile) as [[c|e] w]; [discriminate|]. cbn.
    split; split; try discriminate.
    + intros [?|[?|[]]]; discriminate.
    + intros [? ?]; discriminate.
Qed.

End PipelineOutcome.

(** ** The builder and the pipeline on the program of [testAnalyze] *)

(** X9, witness: [return 1;] is visited with no effect, and the declaration
    after it is visited as if it came first. *)
Lemma silent_leaf_has_no_effect_witness :
  Walk.silentLeaf TestProgram.returnOne = true
  /\ ProgramAnalyzer.visitNode Samples.lineNumbers Samples.analyzer (Root [])
       TestProgram.returnOne Samples.emptyWorld
     = (Normal (Root []), Samples.emptyWorld)
  /\ ProgramAnalyzer.forEach
       (ProgramAnalyzer.visitNode Samples.lineNumbers Samples.analyzer)
       [TestProgram.returnOne; TestProgram.constant "x" "1"] (Root [])
       Samples.emptyWorld
     = ProgramAnalyzer.forEach
         (ProgramAnalyzer.visitNode Samples.lineNumbers Samples.analyzer)
         [TestProgram.constant "x" "1"] (Root []) Samples.emptyWorld.
Proof.
  split; [reflexivity|].
  apply (silent_leaf_has_no_effect Samples.lineNumbers Samples.analyzer
           TestProgram.returnOne [TestProgram.constant "x" "1"] (Root [])
           Samples.emptyWorld).
  reflexivity.
Defined.

(** X10, witness: [a == b] leaves the root as it is and draws one warning,
    about the token [==]. *)
Lemma comparison_adds_nothing_witness :
  ProgramAnalyzer.visitNode Samples.lineNumbers Samples.analyzer (Root [])
    TestProgram.equal Samples.emptyWorld
  = (Normal (Root []),
     {| symbols := ∅;
        console :=
          [ConsoleWarn [Str "found an unspecified node: "; Str "=="; Str ", ";
                        KindName SyntaxKind.EqualsEqualsToken]] |}).
Proof.
  apply (comparison_adds_nothing Samples.lineNumbers Samples.analyzer
           (Root []) "a == b" (Samples.identifier "a")
           SyntaxKind.EqualsEqualsToken "==" (Samples.identifier "b")
           Samples.emptyWorld); [discriminate | reflexivity..].
Defined.

(** X11, witness: the function [test(a: number, b: number)] of
    [testAnalyze]; its body is visited with both parameters in the table. *)
Lemma typed_parameters_are_registered_witness :
  Forall (fun p => is_Some (Walk.declared p))
    [TestProgram.parameter "a" "number"; TestProgram.parameter "b" "number"]
  /\ ProgramAnalyzer.visitNode Samples.lineNumbers Samples.analyzer (Root [])
       TestProgram.test Samples.emptyWorld
     = ProgramAnalyzer.visitNode Samples.lineNumbers Samples.analyzer (Root [])
         (ts.Block "{ ... }"
            [ts.Token SyntaxKind.OpenBraceToken "{";
             ts.SyntaxList "..."
               [TestProgram.constant "x" "1"; TestProgram.constant "y" "2";
                Samples.flatIf];
             ts.Token SyntaxKind.CloseBraceToken "}"])
         TestProgram.bothNumbers.
Proof.
  assert (H : Forall (fun p => is_Some (Walk.declared p))
                [TestProgram.parameter "a" "number";
                 TestProgram.parameter "b" "number"])
    by (repeat constructor; eexists; reflexivity).
  split; [exact H|].
  exact (proj1 (typed_parameters_are_registered Samples.lineNumbers
                  Samples.analyzer "function test(a: number, b: number) { ... }"
                  [TestProgram.parameter "a" "number";
                   TestProgram.parameter "b" "number"]
                  (Some (ts.Block "{ ... }"
                     [ts.Token SyntaxKind.OpenBraceToken "{";
                      ts.SyntaxList "..."
                        [TestProgram.constant "x" "1";
                         TestProgram.constant "y" "2"; Samples.flatIf];
                      ts.Token SyntaxKind.CloseBraceToken "}"]))
                  (Samples.returnBlock "1") (Root []) Samples.emptyWorld H)).
Defined.

(** X12, witness: the same function with the annotation of [b] left out;
    [a] is registered, then the builder throws. *)
Lemma untyped_parameter_throws_witness :
  ProgramAnalyzer.visitNode Samples.lineNumbers Samples.analyzer (Root [])
    TestProgram.untyped Samples.emptyWorld
  = (Throw TypeError, TestProgram.firstNumber).
Proof.
  assert (H : Forall (fun p => is_Some (Walk.declared p))
                [TestProgram.parameter "a" "number"])
    by (repeat constructor; eexists; reflexivity).
  exact (proj1 (proj2 (untyped_parameter_throws Samples.lineNumbers
                         Samples.analyzer "function test(a: number, b) { ... }"
                         [TestProgram.parameter "a" "number"] "b"
                         (Samples.identifier "b") []
                         (Some (Samples.returnBlock "1"))
                         (Samples.returnBlock "1") (Root [])
                         Samples.emptyWorld H))).
Defined.

(** X15, witness: a file that holds that function passes the stand-in
    validator; [analyze] rejects with the TypeError and the solver is not
    called. *)
Lemma analyze_stops_on_unwalkable_tree_witness :
  Walk.walkable TestProgram.untypedSource = false
  /\ Pipeline.stages (Samples.analyzeSample TestProgram.untypedSource)
     = [Pipeline.Precheck; Pipeline.ContextTree]
  /\ Pipeline.solved (Samples.analyzeSample TestProgram.untypedSource) = None
  /\ Pipeline.promise (Samples.analyzeSample TestProgram.untypedSource)
     = Pipeline.Rejected (Pipeline.Thrown TypeError).
Proof.
  split; [reflexivity|].
  apply (analyze_stops_on_unwalkable_tree ts.getText Samples.validator
           Samples.lastLineNumber Samples.lineNumbers Samples.childPaths
           Samples.statementLists Samples.stepText Samples.stepText
           Samples.solver TestProgram.untypedSource).
  reflexivity.
Defined.
